(** * The trace query engine of the api_v2 and api_v3 demo servers

    Two Go programs implement the read path of a tracing backend over an
    in-memory store:

    - the flat-span server ([ApiV2] below), whose store maps a trace
      identifier to a slice of spans, each span pointing at its process;
    - the OTLP server ([ApiV3] below, [cmd/api_v2_demo/main.go]), whose
      store maps a trace identifier to a resource / scope / span tree.

    Both are embedded here function by function.  Go maps are [gmap]s, Go
    slices are lists, pointers that the code tests against [nil] are
    [option]s, a handler returns the receiver it leaves behind together with
    what it answered, and the gRPC server stream is an explicit value. *)

From Stdlib Require Import ZArith.
From stdpp Require Import gmap strings list fin_maps.


(** ** What a handler can come back with *)

(** A Go [error] value, identified by its message. *)
Definition error : Type := string.

(** The three ways a streaming handler ends: [return nil], [return err], or
    a run-time panic on a nil dereference. *)
Inductive status : Type :=
  | OK
  | Failed (err : error)
  | Panicked.

(** ** The server side of a gRPC stream

    [delivered] is what has gone out so far, oldest first.  [verdict] is the
    transport: told the history and the next chunk, it either lets the chunk
    through or refuses it with an error.  A refused chunk is not delivered. *)
Record ServerStream (C : Type) : Type := mkStream {
  delivered : list C;
  verdict : list C → C → option error
}.
Arguments mkStream {C} _ _.
Arguments delivered {C} _.
Arguments verdict {C} _ _ _.

Definition Send {C : Type} (stream : ServerStream C) (c : C)
  : ServerStream C * option error :=
  match verdict stream (delivered stream) c with
  | Some err => (stream, Some err)
  | None => (mkStream (delivered stream ++ [c]) (verdict stream), None)
  end.

(** A transport on which every send succeeds. *)
Definition reliable {C : Type} (stream : ServerStream C) : Prop :=
  ∀ history c, verdict stream history c = None.

(** A fresh stream over a transport that never fails. *)
Definition open_stream {C : Type} : ServerStream C :=
  mkStream [] (λ _ _, None).

(** A fresh stream whose transport refuses everything once [n] chunks are
    out. *)
Definition closing_after {C : Type} (n : nat) (err : error) : ServerStream C :=
  mkStream [] (λ history _, if decide (n ≤ length history) then Some err else None).

(** What a streaming handler leaves behind. *)
Record Run (Q C : Type) : Type := mkRun {
  receiver : Q;
  wire : ServerStream C;
  returned : status
}.
Arguments mkRun {Q C} _ _ _.
Arguments receiver {Q C} _.
Arguments wire {Q C} _.
Arguments returned {Q C} _.

(** What a unary handler leaves behind: Go's [(response, error)] pair. *)
Record Reply (Q A : Type) : Type := mkReply {
  self : Q;
  response : A;
  failure : option error
}.
Arguments mkReply {Q A} _ _ _.
Arguments self {Q A} _.
Arguments response {Q A} _.
Arguments failure {Q A} _.

(** ** Ranging over a Go map

    [for k, v := range m] visits every entry once, in an order the runtime
    picks afresh for each loop.  A scan is therefore run over a list of
    entries, and [range_order] says that the list is one the runtime may
    pick. *)
Definition range_order {T : Type} (m : gmap string T) (entries : list (string * T)) : Prop :=
  entries ≡ₚ map_to_list m.

(** ** The search loop both servers share

    Each server writes the same outer loop: decide [matched] for the trace,
    and when it holds send the whole trace, returning at once if the send
    fails.  [scan] is that loop over an arbitrary matcher; each server's own
    loop is shown equal to it further down. *)
Section Scan.
Context {T C : Type} (matched : T → bool) (chunk : T → C).

Fixpoint scan (entries : list (string * T)) (stream : ServerStream C)
  : ServerStream C * status :=
  match entries with
  | [] => (stream, OK)
  | (_, t) :: rest =>
      if matched t then
        match Send stream (chunk t) with
        | (stream', Some err) => (stream', Failed err)
        | (stream', None) => scan rest stream'
        end
      else scan rest stream
  end.

(** The chunks a complete scan sends: one per matching entry, in order. *)
Definition hits (entries : list (string * T)) : list C :=
  chunk <$> filter (λ t, matched t = true) entries.*2.

End Scan.

(** * The flat-span server

    The store maps a trace identifier to the slice of its spans; a span
    points at the process that emitted it, and that pointer may be nil.
    Slice elements themselves are never nil: the store is filled with
    literals, and decoded messages never hold nil elements. *)
Module ApiV2.

(** [model.KeyValue], built by [model.String] and [model.Int64]. *)
Inductive KeyValue : Type :=
  | KV_String (key value : string)
  | KV_Int64 (key : string) (value : Z).

Record Process : Type := mkProcess {
  Process_ServiceName : string;
  Process_Tags : list KeyValue
}.

(** [model.TraceID]: two unsigned 64-bit halves. *)
Record TraceID : Type := mkTraceID {
  TraceID_High : N;
  TraceID_Low : N
}.

Inductive SpanRefType : Type := ChildOf | FollowsFrom.

Record SpanRef : Type := mkSpanRef {
  SpanRef_TraceID : TraceID;
  SpanRef_SpanID : N;
  SpanRef_RefType : SpanRefType
}.

(** [model.Span].  Times are nanoseconds: [StartTime] since the epoch,
    [Duration] a [time.Duration]. *)
Record Span : Type := mkSpan {
  Span_TraceID : TraceID;
  Span_SpanID : N;
  Span_OperationName : string;
  Span_References : list SpanRef;
  Span_StartTime : Z;
  Span_Duration : Z;
  Span_Process : option Process;
  Span_Tags : list KeyValue
}.

Record SpansResponseChunk : Type := mkSpansResponseChunk {
  Spans : list Span
}.

(** The identifier arrives as bytes; [string(req.TraceId)] keeps them as
    they are. *)
Record GetTraceRequest : Type := mkGetTraceRequest {
  GetTraceRequest_TraceId : string
}.

Record TraceQueryParameters : Type := mkTraceQueryParameters {
  ServiceName : string;
  OperationName : string;
  Attributes : gmap string string
}.

(** [Query] is a pointer, nil when the request carries no query. *)
Record FindTracesRequest : Type := mkFindTracesRequest {
  Query : option TraceQueryParameters
}.

Record GetServicesRequest : Type := mkGetServicesRequest { }.

Record GetServicesResponse : Type := mkGetServicesResponse {
  Services : list string
}.

Record GetOperationsRequest : Type := mkGetOperationsRequest {
  GetOperationsRequest_Service : string;
  GetOperationsRequest_SpanKind : string
}.

Record Operation : Type := mkOperation {
  Operation_Name : string;
  Operation_SpanKind : string
}.

Record GetOperationsResponse : Type := mkGetOperationsResponse {
  Operations : list Operation
}.

Record GetDependenciesRequest : Type := mkGetDependenciesRequest { }.

Record DependencyLink : Type := mkDependencyLink {
  Parent : string;
  Child : string;
  CallCount : N
}.

Record GetDependenciesResponse : Type := mkGetDependenciesResponse {
  Dependencies : list DependencyLink
}.

(** In-memory data of the server. *)
Record QueryService : Type := mkQueryService {
  traces : gmap string (list Span);
  services : list string;
  operations : gmap string (list string)
}.

Definition NewQueryService : QueryService :=
  mkQueryService ∅ [] ∅.

(** The store's write, [q.traces[traceID] = spans], and its comma-ok read,
    [spans, ok := q.traces[traceID]]. *)
Definition Put (traceID : string) (spans : list Span) (q : QueryService) : QueryService :=
  mkQueryService (<[traceID := spans]> (traces q)) (services q) (operations q).

Definition Get (traceID : string) (q : QueryService) : option (list Span) :=
  traces q !! traceID.

(** GetTrace returns a single trace by ID (streaming). *)
Definition GetTrace (q : QueryService) (req : GetTraceRequest)
    (stream : ServerStream SpansResponseChunk) : Run QueryService SpansResponseChunk :=
  let traceID := GetTraceRequest_TraceId req in
  match Get traceID q with
  | Some spans =>
      match Send stream (mkSpansResponseChunk spans) with
      | (stream', Some err) => mkRun q stream' (Failed err)
      | (stream', None) => mkRun q stream' OK
      end
  | None => mkRun q stream OK
  end.

(** The inner loop of FindTraces: the value [matched] has when the loop over
    the spans of one trace is left. *)
Fixpoint matchSpans (query : TraceQueryParameters) (spans : list Span) : bool :=
  match spans with
  | [] => false
  | span :: rest =>
      match Span_Process span with
      | Some process =>
          if String.eqb (Process_ServiceName process) (ServiceName query) then
            if String.eqb (OperationName query) EmptyString
               || String.eqb (Span_OperationName span) (OperationName query)
            then true
            else matchSpans query rest
          else matchSpans query rest
      | None => matchSpans query rest
      end
  end.

(** The outer loop of FindTraces over the entries of [q.traces] in the order
    the runtime ranges over them. *)
Fixpoint rangeTraces (query : TraceQueryParameters) (entries : list (string * list Span))
    (stream : ServerStream SpansResponseChunk) : ServerStream SpansResponseChunk * status :=
  match entries with
  | [] => (stream, OK)
  | (traceID, spans) :: rest =>
      if matchSpans query spans then
        match Send stream (mkSpansResponseChunk spans) with
        | (stream', Some err) => (stream', Failed err)
        | (stream', None) => rangeTraces query rest stream'
        end
      else rangeTraces query rest stream
  end.

(** FindTraces searches for traces matching the query (streaming).  The
    first statement reads [req.Query.ServiceName], which panics on a nil
    [Query]. *)
Definition FindTraces (q : QueryService) (req : FindTracesRequest)
    (stream : ServerStream SpansResponseChunk) (entries : list (string * list Span))
  : Run QueryService SpansResponseChunk :=
  match Query req with
  | None => mkRun q stream Panicked
  | Some query =>
      let '(stream', result) := rangeTraces query entries stream in
      mkRun q stream' result
  end.

(** GetServices returns all known service names. *)
Definition GetServices (q : QueryService) (req : GetServicesRequest)
  : Reply QueryService GetServicesResponse :=
  mkReply q (mkGetServicesResponse (services q)) None.

(** GetOperations returns all operations for a given service. *)
Definition GetOperations (q : QueryService) (req : GetOperationsRequest)
  : Reply QueryService GetOperationsResponse :=
  let operations0 : list Operation := [] in
  let operations1 :=
    match operations q !! GetOperationsRequest_Service req with
    | Some ops =>
        foldl (λ acc opName,
                 acc ++ [mkOperation opName (GetOperationsRequest_SpanKind req)])
              operations0 ops
    | None => operations0
    end in
  mkReply q (mkGetOperationsResponse operations1) None.

Local Open Scope string_scope.

(** GetDependencies returns service dependency graph. *)
Definition GetDependencies (q : QueryService) (req : GetDependenciesRequest)
  : Reply QueryService GetDependenciesResponse :=
  let dependencies :=
    [ mkDependencyLink "frontend" "auth-service" 10;
      mkDependencyLink "auth-service" "database" 8 ] in
  mkReply q (mkGetDependenciesResponse dependencies) None.

(** The catalogue part of [initDemoData]. *)
Definition initCatalog (q : QueryService) : QueryService :=
  let q1 := mkQueryService (traces q) ["frontend"; "auth-service"; "database"]
              (operations q) in
  let q2 := mkQueryService (traces q1) (services q1)
              (<["frontend" :=
                  ["HTTP GET /api/users"; "HTTP POST /api/login"; "HTTP GET /health"]]>
                 (operations q1)) in
  let q3 := mkQueryService (traces q2) (services q2)
              (<["auth-service" := ["authenticate"; "validate-token"; "refresh-token"]]>
                 (operations q2)) in
  mkQueryService (traces q3) (services q3)
    (<["database" := ["SELECT users"; "INSERT session"; "UPDATE last_login"]]>
       (operations q3)).

(** The two helpers of the model package that [createSampleTrace2] calls,
    the clock ([now] is [time.Now()] in nanoseconds) and the first sample
    trace are taken as given. *)
Section Demo.
Variable TraceIDFromString : string → TraceID.
Variable TraceID_String : TraceID → string.
Variable now : Z.
Variable createSampleTrace1 : QueryService → QueryService.

Definition Millisecond : Z := 1000000.

Definition createSampleTrace2 (q : QueryService) : QueryService :=
  let traceID := TraceIDFromString "fedcba0987654321fedcba0987654321" in
  let now := (now - 5 * 60 * 1000 * Millisecond)%Z in
  let span1 :=
    mkSpan traceID 0x4444444444444444%N "HTTP POST /api/login" []
      now (200 * Millisecond)%Z
      (Some (mkProcess "frontend" [KV_String "hostname" "frontend-01"]))
      [KV_String "http.method" "POST"; KV_String "http.url" "/api/login";
       KV_Int64 "http.status_code" 200] in
  let span2 :=
    mkSpan traceID 0x5555555555555555%N "validate-token"
      [mkSpanRef traceID 0x4444444444444444%N ChildOf]
      (now + 15 * Millisecond)%Z (80 * Millisecond)%Z
      (Some (mkProcess "auth-service" [KV_String "hostname" "auth-01"]))
      [KV_String "user.email" "user@example.com"; KV_String "token.type" "jwt"] in
  Put (TraceID_String traceID) [span1; span2] q.

(** Initialize with demo data. *)
Definition initDemoData (q : QueryService) : QueryService :=
  createSampleTrace2 (createSampleTrace1 (initCatalog q)).

End Demo.

Local Close Scope string_scope.

End ApiV2.

(** * The OTLP server

    The store maps a trace identifier to a [TracesData]: resource spans,
    each with a resource (a pointer, possibly nil) and its scope spans, each
    with its spans.  The service a span belongs to is read off the
    attributes of the resource above it.  As in the flat server, slice
    elements are never nil. *)
Module ApiV3.

(** The [oneof] inside [common.AnyValue]: the two alternatives this program
    builds and a third that, like every other one, is not a string. *)
Inductive AnyValue_Value : Type :=
  | AnyValue_StringValue (StringValue : string)
  | AnyValue_IntValue (IntValue : Z)
  | AnyValue_BoolValue (BoolValue : bool).

Record AnyValue : Type := mkAnyValue {
  AnyValue_value : option AnyValue_Value
}.

Record KeyValue : Type := mkKeyValue {
  KeyValue_Key : string;
  KeyValue_Value : option AnyValue
}.

(** The generated getter: the string inside, and the empty string on a nil
    receiver, an unset [oneof] or any other alternative. *)
Definition GetStringValue (x : option AnyValue) : string :=
  match x with
  | Some (mkAnyValue (Some (AnyValue_StringValue s))) => s
  | _ => EmptyString
  end.

Record Resource : Type := mkResource {
  Resource_Attributes : list KeyValue
}.

Inductive Span_SpanKind : Type :=
  | Span_SPAN_KIND_UNSPECIFIED
  | Span_SPAN_KIND_INTERNAL
  | Span_SPAN_KIND_SERVER
  | Span_SPAN_KIND_CLIENT
  | Span_SPAN_KIND_PRODUCER
  | Span_SPAN_KIND_CONSUMER.

Record Span : Type := mkSpan {
  Span_TraceId : list Byte.byte;
  Span_SpanId : list Byte.byte;
  Span_ParentSpanId : list Byte.byte;
  Span_Name : string;
  Span_StartTimeUnixNano : Z;
  Span_EndTimeUnixNano : Z;
  Span_Kind : Span_SpanKind;
  Span_Attributes : list KeyValue
}.

Record ScopeSpans : Type := mkScopeSpans {
  Spans : list Span
}.

Record ResourceSpans : Type := mkResourceSpans {
  ResourceSpans_Resource : option Resource;
  ResourceSpans_ScopeSpans : list ScopeSpans
}.

Record TracesData : Type := mkTracesData {
  TracesData_ResourceSpans : list ResourceSpans
}.

Record GetTraceRequest : Type := mkGetTraceRequest {
  GetTraceRequest_TraceId : string
}.

Record TraceQueryParameters : Type := mkTraceQueryParameters {
  ServiceName : string;
  OperationName : string;
  Attributes : gmap string string
}.

(** [Query] is a pointer, nil when the request carries no query. *)
Record FindTracesRequest : Type := mkFindTracesRequest {
  Query : option TraceQueryParameters
}.

Record GetServicesRequest : Type := mkGetServicesRequest { }.

Record GetServicesResponse : Type := mkGetServicesResponse {
  Services : list string
}.

Record GetOperationsRequest : Type := mkGetOperationsRequest {
  GetOperationsRequest_Service : string;
  GetOperationsRequest_SpanKind : string
}.

Record Operation : Type := mkOperation {
  Operation_Name : string;
  Operation_SpanKind : string
}.

Record GetOperationsResponse : Type := mkGetOperationsResponse {
  Operations : list Operation
}.

(** In-memory data of the server.  The trace pointers in the map are never
    nil: every one is the address of a literal. *)
Record QueryService : Type := mkQueryService {
  traces : gmap string TracesData;
  services : list string;
  operations : gmap string (list string)
}.

Definition NewQueryService : QueryService :=
  mkQueryService ∅ [] ∅.

(** The store's write, [q.traces[traceID] = traces], and its comma-ok read,
    [traces, ok := q.traces[req.TraceId]]. *)
Definition Put (traceID : string) (t : TracesData) (q : QueryService) : QueryService :=
  mkQueryService (<[traceID := t]> (traces q)) (services q) (operations q).

Definition Get (traceID : string) (q : QueryService) : option TracesData :=
  traces q !! traceID.

(** GetTrace returns a single trace by ID (streaming). *)
Definition GetTrace (q : QueryService) (req : GetTraceRequest)
    (stream : ServerStream TracesData) : Run QueryService TracesData :=
  match Get (GetTraceRequest_TraceId req) q with
  | Some t =>
      match Send stream (mkTracesData (TracesData_ResourceSpans t)) with
      | (stream', Some err) => mkRun q stream' (Failed err)
      | (stream', None) => mkRun q stream' OK
      end
  | None => mkRun q stream OK
  end.

Local Open Scope string_scope.

(** Helper function to extract service name from resource. *)
Fixpoint firstServiceName (attributes : list KeyValue) : string :=
  match attributes with
  | [] => ""
  | attr :: rest =>
      if String.eqb (KeyValue_Key attr) "service.name"
      then GetStringValue (KeyValue_Value attr)
      else firstServiceName rest
  end.

Definition getServiceName (resource : option Resource) : string :=
  match resource with
  | None => ""
  | Some r => firstServiceName (Resource_Attributes r)
  end.

(** The three nested loops of FindTraces, innermost first; each gives the
    value [matched] has when the loop is left. *)
Fixpoint matchSpans (operationName : string) (spans : list Span) : bool :=
  match spans with
  | [] => false
  | span :: rest =>
      if String.eqb (Span_Name span) operationName then true
      else matchSpans operationName rest
  end.

Fixpoint matchScopeSpans (operationName : string) (scopes : list ScopeSpans) : bool :=
  match scopes with
  | [] => false
  | ss :: rest =>
      if matchSpans operationName (Spans ss) then true
      else matchScopeSpans operationName rest
  end.

Fixpoint matchResourceSpans (query : TraceQueryParameters) (rss : list ResourceSpans) : bool :=
  match rss with
  | [] => false
  | rs :: rest =>
      let serviceName := getServiceName (ResourceSpans_Resource rs) in
      if String.eqb serviceName (ServiceName query) then
        if String.eqb (OperationName query) "" then true
        else if matchScopeSpans (OperationName query) (ResourceSpans_ScopeSpans rs) then true
        else matchResourceSpans query rest
      else matchResourceSpans query rest
  end.

(** The outer loop of FindTraces over the entries of [q.traces] in the order
    the runtime ranges over them. *)
Fixpoint rangeTraces (query : TraceQueryParameters) (entries : list (string * TracesData))
    (stream : ServerStream TracesData) : ServerStream TracesData * status :=
  match entries with
  | [] => (stream, OK)
  | (traceID, t) :: rest =>
      if matchResourceSpans query (TracesData_ResourceSpans t) then
        match Send stream (mkTracesData (TracesData_ResourceSpans t)) with
        | (stream', Some err) => (stream', Failed err)
        | (stream', None) => rangeTraces query rest stream'
        end
      else rangeTraces query rest stream
  end.

(** FindTraces searches for traces matching the query (streaming).  The
    first statement reads [req.Query.ServiceName], which panics on a nil
    [Query]. *)
Definition FindTraces (q : QueryService) (req : FindTracesRequest)
    (stream : ServerStream TracesData) (entries : list (string * TracesData))
  : Run QueryService TracesData :=
  match Query req with
  | None => mkRun q stream Panicked
  | Some query =>
      let '(stream', result) := rangeTraces query entries stream in
      mkRun q stream' result
  end.

(** GetServices returns all known service names. *)
Definition GetServices (q : QueryService) (req : GetServicesRequest)
  : Reply QueryService GetServicesResponse :=
  mkReply q (mkGetServicesResponse (services q)) None.

(** GetOperations returns all operations for a given service.  The
    [SpanKind] of each operation is left at its zero value. *)
Definition GetOperations (q : QueryService) (req : GetOperationsRequest)
  : Reply QueryService GetOperationsResponse :=
  let operations0 : list Operation := [] in
  let operations1 :=
    match operations q !! GetOperationsRequest_Service req with
    | Some ops => foldl (λ acc op, (acc ++ [mkOperation op ""])%list) operations0 ops
    | None => operations0
    end in
  mkReply q (mkGetOperationsResponse operations1) None.

(** Helper function to create a string attribute. *)
Definition stringAttr (key value : string) : KeyValue :=
  mkKeyValue key (Some (mkAnyValue (Some (AnyValue_StringValue value)))).

(** Helper function to create an int attribute. *)
Definition intAttr (key : string) (value : Z) : KeyValue :=
  mkKeyValue key (Some (mkAnyValue (Some (AnyValue_IntValue value)))).

(** Unsigned 64-bit arithmetic wraps around. *)
Definition uint64 (z : Z) : Z := (z mod 2 ^ 64)%Z.

Definition Millisecond : Z := 1000000.

(** The catalogue part of [initDemoData]. *)
Definition initCatalog (q : QueryService) : QueryService :=
  let q1 := mkQueryService (traces q) ["frontend"; "auth-service"; "database"]
              (operations q) in
  let q2 := mkQueryService (traces q1) (services q1)
              (<["frontend" :=
                  ["HTTP GET /api/users"; "HTTP POST /api/login"; "HTTP GET /health"]]>
                 (operations q1)) in
  let q3 := mkQueryService (traces q2) (services q2)
              (<["auth-service" := ["authenticate"; "validate-token"; "refresh-token"]]>
                 (operations q2)) in
  mkQueryService (traces q3) (services q3)
    (<["database" := ["SELECT users"; "INSERT session"; "UPDATE last_login"]]>
       (operations q3)).

(** The clock is taken as given: [now] is what [time.Now().UnixNano()]
    gives at the one place where the function reads the clock. *)
Section Demo.
Variable now : Z.

Definition bytes (n : nat) (b : Byte.byte) : list Byte.byte := replicate n b.

Definition createSampleTrace1 (q : QueryService) : QueryService :=
  let traceID := "1234567890abcdef1234567890abcdef" in
  let startTimeNano := uint64 now in
  let t :=
    mkTracesData
      [ mkResourceSpans
          (Some (mkResource [stringAttr "service.name" "frontend";
                             stringAttr "hostname" "frontend-01"]))
          [ mkScopeSpans
              [ mkSpan (take 16 (String.list_byte_of_string traceID)) (bytes 8 Byte.x11) []
                  "HTTP GET /api/users"
                  startTimeNano (uint64 (startTimeNano + uint64 (120 * Millisecond)))
                  Span_SPAN_KIND_SERVER
                  [stringAttr "http.method" "GET"; stringAttr "http.url" "/api/users";
                   intAttr "http.status_code" 200] ] ];
        mkResourceSpans
          (Some (mkResource [stringAttr "service.name" "auth-service";
                             stringAttr "hostname" "auth-01"]))
          [ mkScopeSpans
              [ mkSpan (take 16 (String.list_byte_of_string traceID)) (bytes 8 Byte.x22)
                  (bytes 8 Byte.x11) "authenticate"
                  (uint64 (startTimeNano + uint64 (10 * Millisecond)))
                  (uint64 (startTimeNano + uint64 (60 * Millisecond)))
                  Span_SPAN_KIND_SERVER
                  [stringAttr "user.id" "user123"] ] ];
        mkResourceSpans
          (Some (mkResource [stringAttr "service.name" "database";
                             stringAttr "hostname" "db-01"]))
          [ mkScopeSpans
              [ mkSpan (take 16 (String.list_byte_of_string traceID)) (bytes 8 Byte.x33)
                  (bytes 8 Byte.x22) "SELECT users"
                  (uint64 (startTimeNano + uint64 (20 * Millisecond)))
                  (uint64 (startTimeNano + uint64 (50 * Millisecond)))
                  Span_SPAN_KIND_CLIENT
                  [stringAttr "db.type" "postgresql";
                   stringAttr "db.statement" "SELECT * FROM users WHERE id = $1"] ] ] ] in
  Put traceID t q.

Definition createSampleTrace2 (q : QueryService) : QueryService :=
  let traceID := "fedcba0987654321fedcba0987654321" in
  let startTimeNano := uint64 (now - 5 * 60 * 1000 * Millisecond) in
  let t :=
    mkTracesData
      [ mkResourceSpans
          (Some (mkResource [stringAttr "service.name" "frontend";
                             stringAttr "hostname" "frontend-01"]))
          [ mkScopeSpans
              [ mkSpan (take 16 (String.list_byte_of_string traceID)) (bytes 8 Byte.x44) []
                  "HTTP POST /api/login"
                  startTimeNano (uint64 (startTimeNano + uint64 (200 * Millisecond)))
                  Span_SPAN_KIND_SERVER
                  [stringAttr "http.method" "POST"; stringAttr "http.url" "/api/login";
                   intAttr "http.status_code" 200] ] ];
        mkResourceSpans
          (Some (mkResource [stringAttr "service.name" "auth-service"]))
          [ mkScopeSpans
              [ mkSpan (take 16 (String.list_byte_of_string traceID)) (bytes 8 Byte.x55)
                  (bytes 8 Byte.x44) "validate-token"
                  (uint64 (startTimeNano + uint64 (15 * Millisecond)))
                  (uint64 (startTimeNano + uint64 (95 * Millisecond)))
                  Span_SPAN_KIND_SERVER
                  [stringAttr "user.email" "user@example.com"] ] ] ] in
  Put traceID t q.

End Demo.

(** Initialize with demo data.  Each sample trace reads the clock for
    itself: [now1] is the reading made in createSampleTrace1, [now2] the
    later one made in createSampleTrace2. *)
Definition initDemoData (now1 now2 : Z) (q : QueryService) : QueryService :=
  createSampleTrace2 now2 (createSampleTrace1 now1 (initCatalog q)).

Local Close Scope string_scope.

End ApiV3.

(** * The matching rule in words

    What it means for a trace to match a query, written down independently
    of the loops above and compared with them below. *)

(** Flat spans: the span has a process, the process carries the service
    asked for, and the operation asked for is empty or is the span's. *)
Definition flat_span_matches (query : ApiV2.TraceQueryParameters) (span : ApiV2.Span) : Prop :=
  ∃ process,
    ApiV2.Span_Process span = Some process
    ∧ ApiV2.Process_ServiceName process = ApiV2.ServiceName query
    ∧ (ApiV2.OperationName query = EmptyString
       ∨ ApiV2.Span_OperationName span = ApiV2.OperationName query).

Definition flat_trace_matches (query : ApiV2.TraceQueryParameters) (spans : list ApiV2.Span) : Prop :=
  ∃ span, span ∈ spans ∧ flat_span_matches query span.

(** OTLP, span by span: the span sits under a resource that is present and
    names the service asked for, and the operation asked for is empty or is
    the span's name. *)
Definition otlp_span_matches (query : ApiV3.TraceQueryParameters)
    (rs : ApiV3.ResourceSpans) (span : ApiV3.Span) : Prop :=
  ∃ resource,
    ApiV3.ResourceSpans_Resource rs = Some resource
    ∧ ApiV3.getServiceName (Some resource) = ApiV3.ServiceName query
    ∧ (ApiV3.OperationName query = EmptyString
       ∨ ApiV3.Span_Name span = ApiV3.OperationName query).

Definition otlp_trace_matches (query : ApiV3.TraceQueryParameters) (t : ApiV3.TracesData) : Prop :=
  ∃ rs ss span,
    rs ∈ ApiV3.TracesData_ResourceSpans t
    ∧ ss ∈ ApiV3.ResourceSpans_ScopeSpans rs
    ∧ span ∈ ApiV3.Spans ss
    ∧ otlp_span_matches query rs span.

(** OTLP, as the loops decide it: some resource spans of the trace has the
    service name asked for, as [getServiceName] reads it off the resource,
    and the operation asked for is empty or is the name of a span under
    those resource spans. *)
Definition otlp_resource_spans_accepted (query : ApiV3.TraceQueryParameters)
    (rs : ApiV3.ResourceSpans) : Prop :=
  ApiV3.getServiceName (ApiV3.ResourceSpans_Resource rs) = ApiV3.ServiceName query
  ∧ (ApiV3.OperationName query = EmptyString
     ∨ ∃ ss span,
         ss ∈ ApiV3.ResourceSpans_ScopeSpans rs
         ∧ span ∈ ApiV3.Spans ss
         ∧ ApiV3.Span_Name span = ApiV3.OperationName query).

Definition otlp_trace_accepted (query : ApiV3.TraceQueryParameters)
    (t : ApiV3.TracesData) : Prop :=
  ∃ rs, rs ∈ ApiV3.TracesData_ResourceSpans t ∧ otlp_resource_spans_accepted query rs.

(** * Derived notions used in the statements *)

(** What a handler sent: the part of the stream that was not there when it
    was called. *)
Definition emitted {C : Type} (before after : ServerStream C) : list C :=
  drop (length (delivered before)) (delivered after).

(** A run of writes to the store, oldest first. *)
Definition flat_puts (writes : list (string * list ApiV2.Span)) (q : ApiV2.QueryService)
  : ApiV2.QueryService :=
  foldl (λ q w, ApiV2.Put w.1 w.2 q) q writes.

Definition otlp_puts (writes : list (string * ApiV3.TracesData)) (q : ApiV3.QueryService)
  : ApiV3.QueryService :=
  foldl (λ q w, ApiV3.Put w.1 w.2 q) q writes.

(** * Concrete stores and requests *)

Local Open Scope string_scope.

(** The OTLP demo store at two fixed clock readings, the second a little
    after the first. *)
Definition otlp_demo : ApiV3.QueryService :=
  ApiV3.initDemoData 1700000000000000000 1700000000000042000 ApiV3.NewQueryService.

(** The flat demo store: the two identifier helpers are fixed at what they
    give for the sample identifier, and the first sample trace adds
    nothing. *)
Definition flat_demo : ApiV2.QueryService :=
  ApiV2.initDemoData
    (λ _, ApiV2.mkTraceID 0xfedcba0987654321 0xfedcba0987654321)
    (λ _, "fedcba0987654321fedcba0987654321")
    1700000000000000000
    (λ q, q)
    ApiV2.NewQueryService.

Definition flat_query (service operation : string) : ApiV2.FindTracesRequest :=
  ApiV2.mkFindTracesRequest (Some (ApiV2.mkTraceQueryParameters service operation ∅)).

Definition otlp_query (service operation : string) : ApiV3.FindTracesRequest :=
  ApiV3.mkFindTracesRequest (Some (ApiV3.mkTraceQueryParameters service operation ∅)).

(** A flat span with nothing but an operation name and a process pointer. *)
Definition flat_span (operation : string) (process : option ApiV2.Process) : ApiV2.Span :=
  ApiV2.mkSpan (ApiV2.mkTraceID 0 0) 0 operation [] 0 0 process [].

(** An OTLP span with nothing but a name. *)
Definition otlp_span (name : string) : ApiV3.Span :=
  ApiV3.mkSpan [] [] [] name 0 0 ApiV3.Span_SPAN_KIND_UNSPECIFIED [].

(** A trace whose only resource names the frontend and has no spans. *)
Definition spanless_trace : ApiV3.TracesData :=
  ApiV3.mkTracesData
    [ ApiV3.mkResourceSpans
        (Some (ApiV3.mkResource [ApiV3.stringAttr "service.name" "frontend"])) [] ].

Definition spanless_store : ApiV3.QueryService :=
  ApiV3.Put "0a" spanless_trace ApiV3.NewQueryService.

(** A trace whose only span sits under resource spans with a nil
    resource. *)
Definition orphan_trace : ApiV3.TracesData :=
  ApiV3.mkTracesData
    [ ApiV3.mkResourceSpans None [ApiV3.mkScopeSpans [otlp_span "checkout"]] ].

Definition orphan_store : ApiV3.QueryService :=
  ApiV3.Put "0b" orphan_trace ApiV3.NewQueryService.

(** The flat counterpart: a span with a nil process. *)
Definition flat_orphan_store : ApiV2.QueryService :=
  ApiV2.Put "0b" [flat_span "checkout" None] ApiV2.NewQueryService.

(** A flat trace with no span at all. *)
Definition flat_spanless_store : ApiV2.QueryService :=
  ApiV2.Put "0a" [] ApiV2.NewQueryService.

(** A flat trace with one span of the frontend. *)
Definition flat_login_trace : list ApiV2.Span :=
  [flat_span "login" (Some (ApiV2.mkProcess "frontend" []))].

Definition flat_login_store : ApiV2.QueryService :=
  ApiV2.Put "0c" flat_login_trace ApiV2.NewQueryService.

Local Close Scope string_scope.

(** * The shape of a stored OTLP trace *)

(** The spans of a trace, resource by resource and scope by scope. *)
Definition otlp_spans (t : ApiV3.TracesData) : list ApiV3.Span :=
  ApiV3.TracesData_ResourceSpans t ≫= λ rs,
    ApiV3.ResourceSpans_ScopeSpans rs ≫= ApiV3.Spans.

(** Both timestamps fit an unsigned 64-bit field. *)
Definition otlp_span_in_range (span : ApiV3.Span) : Prop :=
  (0 ≤ ApiV3.Span_StartTimeUnixNano span < 2 ^ 64)%Z
  ∧ (0 ≤ ApiV3.Span_EndTimeUnixNano span < 2 ^ 64)%Z.

(** The span ends after it starts, and if it names a parent, the parent is
    among [spans] and its interval contains the span's. *)
Definition otlp_span_nested (spans : list ApiV3.Span) (child : ApiV3.Span) : Prop :=
  (ApiV3.Span_StartTimeUnixNano child < ApiV3.Span_EndTimeUnixNano child)%Z
  ∧ (ApiV3.Span_ParentSpanId child = []
     ∨ ∃ parent,
         parent ∈ spans
         ∧ ApiV3.Span_SpanId parent = ApiV3.Span_ParentSpanId child
         ∧ (ApiV3.Span_StartTimeUnixNano parent ≤ ApiV3.Span_StartTimeUnixNano child)%Z
         ∧ (ApiV3.Span_EndTimeUnixNano child ≤ ApiV3.Span_EndTimeUnixNano parent)%Z).

(** The first sample trace as loaded at a fixed clock reading. *)
Definition otlp_sample1 : ApiV3.TracesData :=
  default (ApiV3.mkTracesData [])
    (ApiV3.Get "1234567890abcdef1234567890abcdef"
       (ApiV3.createSampleTrace1 1700000000000000000 ApiV3.NewQueryService)).

(** * Facts about the shared search loop *)
Section ScanFacts.
Context {T C : Type} (matched : T → bool) (chunk : T → C).

Lemma hits_cons_true k t rest :
  matched t = true → hits matched chunk ((k, t) :: rest) = chunk t :: hits matched chunk rest.
Proof.
  intros Hm. unfold hits. simpl. rewrite filter_cons_True; done.
Qed.

Lemma hits_cons_false k t rest :
  matched t = false → hits matched chunk ((k, t) :: rest) = hits matched chunk rest.
Proof.
  intros Hm. unfold hits. simpl. rewrite filter_cons_False; [done|].
  rewrite Hm. discriminate.
Qed.

Lemma Send_reliable (stream : ServerStream C) c :
  reliable stream →
  Send stream c = (mkStream (delivered stream ++ [c]) (verdict stream), None).
Proof. intros Hr. unfold Send. by rewrite Hr. Qed.

(** A refused send leaves the stream as it was. *)
Lemma Send_refused (stream stream' : ServerStream C) c err :
  Send stream c = (stream', Some err) → stream' = stream.
Proof. unfold Send. destruct (verdict _ _ _); by intros [= <-]. Qed.

(** On a transport that never fails the scan runs to the end and sends
    exactly the hits. *)
Lemma scan_reliable entries stream :
  reliable stream →
  scan matched chunk entries stream =
    (mkStream (delivered stream ++ hits matched chunk entries) (verdict stream), OK).
Proof.
  revert stream. induction entries as [|[k t] rest IH]; intros stream Hr.
  - simpl. unfold hits. simpl. rewrite app_nil_r. by destruct stream.
  - simpl. destruct (matched t) eqn:Hm.
    + rewrite Send_reliable by done.
      rewrite IH by (intros h c; apply Hr). simpl.
      rewrite (hits_cons_true k) by done.
      by rewrite <- app_assoc.
    + rewrite IH by done. by rewrite (hits_cons_false k).
Qed.

(** Whatever the transport does, the scan only ever appends. *)
Lemma scan_appends entries stream :
  ∃ more, delivered (scan matched chunk entries stream).1 = delivered stream ++ more.
Proof.
  revert stream. induction entries as [|[k t] rest IH]; intros stream; simpl.
  - exists []. by rewrite app_nil_r.
  - destruct (matched t); [|apply IH].
    unfold Send. destruct (verdict stream (delivered stream) (chunk t)) eqn:Hv.
    + exists []. by rewrite app_nil_r.
    + destruct (IH (mkStream (delivered stream ++ [chunk t]) (verdict stream)))
        as (more & Hd).
      exists (chunk t :: more). rewrite Hd. simpl. by rewrite <- app_assoc.
Qed.

(** The scan itself never panics. *)
Lemma scan_no_panic entries stream :
  (scan matched chunk entries stream).2 ≠ Panicked.
Proof.
  revert stream. induction entries as [|[k t] rest IH]; intros stream; simpl.
  - discriminate.
  - destruct (matched t); [|apply IH].
    destruct (Send stream (chunk t)) as [stream' [err|]]; [discriminate|apply IH].
Qed.

(** A scan that got through [before] unharmed continues with what
    follows. *)
Lemma scan_app before after stream stream1 :
  scan matched chunk before stream = (stream1, OK) →
  scan matched chunk (before ++ after) stream = scan matched chunk after stream1.
Proof.
  revert stream. induction before as [|[k t] rest IH]; intros stream; simpl.
  - by intros [= ->].
  - destruct (matched t); [|apply IH].
    destruct (Send stream (chunk t)) as [stream' [err|]]; [discriminate|apply IH].
Qed.

(** A failed send of a matching trace ends the scan there: the entries
    after it play no part in the outcome. *)
Lemma scan_abort before k t after stream stream1 stream2 err :
  scan matched chunk before stream = (stream1, OK) →
  matched t = true →
  Send stream1 (chunk t) = (stream2, Some err) →
  scan matched chunk (before ++ (k, t) :: after) stream = (stream2, Failed err).
Proof.
  intros Hb Hm Hs. rewrite (scan_app _ _ _ _ Hb). simpl. by rewrite Hm, Hs.
Qed.

(** Conversely a scan that returns an error stopped at a matching trace
    whose send was refused with that very error. *)
Lemma scan_failed entries stream stream2 err :
  scan matched chunk entries stream = (stream2, Failed err) →
  ∃ before k t after,
    entries = before ++ (k, t) :: after
    ∧ matched t = true
    ∧ scan matched chunk before stream = (stream2, OK)
    ∧ Send stream2 (chunk t) = (stream2, Some err).
Proof.
  revert stream. induction entries as [|[k t] rest IH]; intros stream; simpl.
  - discriminate.
  - destruct (matched t) eqn:Hm.
    + destruct (Send stream (chunk t)) as [stream' [e|]] eqn:Hs.
      * intros [= -> ->]. exists [], k, t, rest. simpl.
        pose proof (Send_refused _ _ _ _ Hs) as ->. done.
      * intros H. destruct (IH _ H) as (before & k' & t' & after & -> & Hm' & Hb & Hs').
        exists ((k, t) :: before), k', t', after. simpl. by rewrite Hm, Hs.
    + intros H. destruct (IH _ H) as (before & k' & t' & after & -> & Hm' & Hb & Hs').
      exists ((k, t) :: before), k', t', after. simpl. by rewrite Hm.
Qed.

(** What any scan has sent is an initial part of the hits, and all of them
    when the scan returns nil. *)
Lemma scan_sent entries stream :
  ∃ more,
    delivered (scan matched chunk entries stream).1 = delivered stream ++ more
    ∧ more `prefix_of` hits matched chunk entries
    ∧ ((scan matched chunk entries stream).2 = OK → more = hits matched chunk entries).
Proof.
  revert stream. induction entries as [|[k t] rest IH]; intros stream; simpl.
  - exists []. rewrite app_nil_r. done.
  - destruct (matched t) eqn:Hm.
    + rewrite (hits_cons_true k) by done.
      unfold Send. destruct (verdict stream (delivered stream) (chunk t)) eqn:Hv; simpl.
      * exists []. rewrite app_nil_r. split; [done|]. split; [apply prefix_nil|done].
      * destruct (IH (mkStream (delivered stream ++ [chunk t]) (verdict stream)))
          as (more & Hd & Hp & Hok).
        exists (chunk t :: more). rewrite Hd. simpl. rewrite <- app_assoc.
        split; [done|]. split; [by apply prefix_cons|].
        intros H. by rewrite Hok.
    + rewrite (hits_cons_false k) by done. apply IH.
Qed.

Lemma elem_of_hits entries c :
  c ∈ hits matched chunk entries
  ↔ ∃ k t, (k, t) ∈ entries ∧ matched t = true ∧ c = chunk t.
Proof.
  unfold hits. rewrite list_elem_of_fmap. split.
  - intros (t & -> & Ht). apply list_elem_of_filter in Ht as [Hm Ht].
    apply list_elem_of_fmap in Ht as ([k t'] & -> & Hin). by exists k, t'.
  - intros (k & t & Hin & Hm & ->). exists t. split; [done|].
    apply list_elem_of_filter. split; [done|].
    apply list_elem_of_fmap. by exists (k, t).
Qed.

Lemma scan_emitted_sound entries stream c :
  c ∈ emitted stream (scan matched chunk entries stream).1 →
  ∃ k t, (k, t) ∈ entries ∧ matched t = true ∧ c = chunk t.
Proof.
  destruct (scan_sent entries stream) as (more & Hd & Hp & _).
  unfold emitted. rewrite Hd, drop_app_length. intros Hc.
  apply elem_of_hits. destruct Hp as [rest ->]. apply elem_of_app. by left.
Qed.

Lemma scan_emitted_complete entries stream k t :
  (scan matched chunk entries stream).2 = OK →
  (k, t) ∈ entries → matched t = true →
  chunk t ∈ emitted stream (scan matched chunk entries stream).1.
Proof.
  intros Hok Hin Hm.
  destruct (scan_sent entries stream) as (more & Hd & _ & Hall).
  unfold emitted. rewrite Hd, drop_app_length, (Hall Hok).
  apply elem_of_hits. by exists k, t.
Qed.

End ScanFacts.

(** An entry the runtime ranges over is an entry of the map, and the other
    way round. *)
Lemma range_order_elem {T : Type} (m : gmap string T) entries k t :
  range_order m entries → ((k, t) ∈ entries ↔ m !! k = Some t).
Proof.
  unfold range_order. intros Hp. rewrite Hp. apply elem_of_map_to_list.
Qed.

(** * The loops of the two servers, characterised *)

Lemma flat_rangeTraces_scan query entries stream :
  ApiV2.rangeTraces query entries stream
  = scan (ApiV2.matchSpans query) ApiV2.mkSpansResponseChunk entries stream.
Proof.
  revert stream. induction entries as [|[k spans] rest IH]; intros stream; simpl.
  - done.
  - destruct (ApiV2.matchSpans query spans); [|apply IH].
    destruct (Send stream _) as [stream' [err|]]; [done|apply IH].
Qed.

Lemma otlp_rangeTraces_scan query entries stream :
  ApiV3.rangeTraces query entries stream
  = scan (λ t, ApiV3.matchResourceSpans query (ApiV3.TracesData_ResourceSpans t))
         (λ t, ApiV3.mkTracesData (ApiV3.TracesData_ResourceSpans t)) entries stream.
Proof.
  revert stream. induction entries as [|[k t] rest IH]; intros stream; simpl.
  - done.
  - destruct (ApiV3.matchResourceSpans query _); [|apply IH].
    destruct (Send stream _) as [stream' [err|]]; [done|apply IH].
Qed.

(** FindTraces with a query is the shared loop with the server's matcher. *)
Lemma flat_FindTraces_scan (q : ApiV2.QueryService) query stream entries :
  ApiV2.FindTraces q (ApiV2.mkFindTracesRequest (Some query)) stream entries
  = mkRun q
      (scan (ApiV2.matchSpans query) ApiV2.mkSpansResponseChunk entries stream).1
      (scan (ApiV2.matchSpans query) ApiV2.mkSpansResponseChunk entries stream).2.
Proof.
  unfold ApiV2.FindTraces. simpl. rewrite flat_rangeTraces_scan.
  by destruct (scan _ _ entries stream).
Qed.

Lemma otlp_FindTraces_scan (q : ApiV3.QueryService) query stream entries :
  ApiV3.FindTraces q (ApiV3.mkFindTracesRequest (Some query)) stream entries
  = mkRun q
      (scan (λ t, ApiV3.matchResourceSpans query (ApiV3.TracesData_ResourceSpans t))
         (λ t, ApiV3.mkTracesData (ApiV3.TracesData_ResourceSpans t)) entries stream).1
      (scan (λ t, ApiV3.matchResourceSpans query (ApiV3.TracesData_ResourceSpans t))
         (λ t, ApiV3.mkTracesData (ApiV3.TracesData_ResourceSpans t)) entries stream).2.
Proof.
  unfold ApiV3.FindTraces. simpl. rewrite otlp_rangeTraces_scan.
  by destruct (scan _ _ entries stream).
Qed.

(** The chunk the OTLP server builds from a stored trace is that trace. *)
Lemma otlp_chunk_id (t : ApiV3.TracesData) :
  ApiV3.mkTracesData (ApiV3.TracesData_ResourceSpans t) = t.
Proof. by destruct t. Qed.

(** The flat inner loop finds a match exactly when some span matches. *)
Lemma flat_matchSpans_spec query spans :
  ApiV2.matchSpans query spans = true ↔ flat_trace_matches query spans.
Proof.
  unfold flat_trace_matches, flat_span_matches.
  induction spans as [|span rest IH]; simpl.
  - split; [discriminate|]. intros (span & Hin & _). by apply elem_of_nil in Hin.
  - assert (Hrest : ApiV2.matchSpans query rest = true →
      ∃ s, s ∈ span :: rest ∧ ∃ p, ApiV2.Span_Process s = Some p
        ∧ ApiV2.Process_ServiceName p = ApiV2.ServiceName query
        ∧ (ApiV2.OperationName query = EmptyString
           ∨ ApiV2.Span_OperationName s = ApiV2.OperationName query)).
    { intros H. apply IH in H as (s & Hin & Hs). exists s. split; [by right|done]. }
    destruct (ApiV2.Span_Process span) as [process|] eqn:Hp.
    + destruct (String.eqb_spec (ApiV2.Process_ServiceName process) (ApiV2.ServiceName query))
        as [Hsvc|Hsvc].
      * destruct (String.eqb_spec (ApiV2.OperationName query) EmptyString) as [Ho|Ho]; simpl.
        { split; [|done]. intros _. exists span. split; [by left|].
          exists process. auto. }
        destruct (String.eqb_spec (ApiV2.Span_OperationName span) (ApiV2.OperationName query))
          as [Hn|Hn].
        { split; [|done]. intros _. exists span. split; [by left|].
          exists process. auto. }
        split; [exact Hrest|].
        intros (s & Hin & p & Hsp & Hs & Hop). apply IH.
        apply elem_of_cons in Hin as [->|Hin].
        { rewrite Hp in Hsp. injection Hsp as <-. by destruct Hop. }
        exists s. split; [done|]. by exists p.
      * split; [exact Hrest|].
        intros (s & Hin & p & Hsp & Hs & Hop). apply IH.
        apply elem_of_cons in Hin as [->|Hin].
        { rewrite Hp in Hsp. by injection Hsp as <-. }
        exists s. split; [done|]. by exists p.
    + split; [exact Hrest|].
      intros (s & Hin & p & Hsp & Hs & Hop). apply IH.
      apply elem_of_cons in Hin as [->|Hin].
      { by rewrite Hp in Hsp. }
      exists s. split; [done|]. by exists p.
Qed.

Lemma otlp_matchSpans_spec operationName spans :
  ApiV3.matchSpans operationName spans = true
  ↔ ∃ span, span ∈ spans ∧ ApiV3.Span_Name span = operationName.
Proof.
  induction spans as [|span rest IH]; simpl.
  - split; [discriminate|]. intros (s & Hin & _). by apply elem_of_nil in Hin.
  - destruct (String.eqb_spec (ApiV3.Span_Name span) operationName) as [Hn|Hn].
    + split; [|done]. intros _. exists span. split; [by left|done].
    + rewrite IH. split.
      * intros (s & Hin & Hs). exists s. split; [by right|done].
      * intros (s & Hin & Hs). apply elem_of_cons in Hin as [->|Hin]; [done|].
        by exists s.
Qed.

Lemma otlp_matchScopeSpans_spec operationName scopes :
  ApiV3.matchScopeSpans operationName scopes = true
  ↔ ∃ ss span, ss ∈ scopes ∧ span ∈ ApiV3.Spans ss
               ∧ ApiV3.Span_Name span = operationName.
Proof.
  induction scopes as [|ss rest IH]; simpl.
  - split; [discriminate|]. intros (s & ? & Hin & _). by apply elem_of_nil in Hin.
  - destruct (ApiV3.matchSpans operationName (ApiV3.Spans ss)) eqn:Hm.
    + split; [|done]. intros _.
      apply otlp_matchSpans_spec in Hm as (span & Hin & Hn).
      exists ss, span. split; [by left|done].
    + rewrite IH. split.
      * intros (s & span & Hin & Hs). exists s, span. split; [by right|done].
      * intros (s & span & Hin & Hsp & Hn).
        apply elem_of_cons in Hin as [->|Hin]; [|by exists s, span].
        assert (ApiV3.matchSpans operationName (ApiV3.Spans ss) = true) as Hc.
        { apply otlp_matchSpans_spec. by exists span. }
        congruence.
Qed.

(** The OTLP loop over resource spans finds a match exactly when some
    resource spans carries the service name asked for, as [getServiceName]
    reads it, and the operation asked for is empty or names a span below. *)
Lemma otlp_matchResourceSpans_spec query rss :
  ApiV3.matchResourceSpans query rss = true
  ↔ ∃ rs, rs ∈ rss
      ∧ ApiV3.getServiceName (ApiV3.ResourceSpans_Resource rs) = ApiV3.ServiceName query
      ∧ (ApiV3.OperationName query = EmptyString
         ∨ ∃ ss span, ss ∈ ApiV3.ResourceSpans_ScopeSpans rs
                      ∧ span ∈ ApiV3.Spans ss
                      ∧ ApiV3.Span_Name span = ApiV3.OperationName query).
Proof.
  induction rss as [|rs rest IH]; simpl.
  - split; [discriminate|]. intros (s & Hin & _). by apply elem_of_nil in Hin.
  - assert (Hrest : ApiV3.matchResourceSpans query rest = true →
      ∃ rs0, rs0 ∈ rs :: rest
        ∧ ApiV3.getServiceName (ApiV3.ResourceSpans_Resource rs0) = ApiV3.ServiceName query
        ∧ (ApiV3.OperationName query = EmptyString
           ∨ ∃ ss span, ss ∈ ApiV3.ResourceSpans_ScopeSpans rs0
                        ∧ span ∈ ApiV3.Spans ss
                        ∧ ApiV3.Span_Name span = ApiV3.OperationName query)).
    { intros H. apply IH in H as (s & Hin & Hs). exists s. split; [by right|done]. }
    destruct (String.eqb_spec (ApiV3.getServiceName (ApiV3.ResourceSpans_Resource rs))
                (ApiV3.ServiceName query)) as [Hsvc|Hsvc].
    + destruct (String.eqb_spec (ApiV3.OperationName query) EmptyString) as [Ho|Ho].
      { split; [|done]. intros _. exists rs. split; [by left|]. auto. }
      destruct (ApiV3.matchScopeSpans (ApiV3.OperationName query)
                  (ApiV3.ResourceSpans_ScopeSpans rs)) eqn:Hm.
      { split; [|done]. intros _. exists rs. split; [by left|].
        split; [done|]. right. by apply otlp_matchScopeSpans_spec. }
      split; [exact Hrest|].
      intros (s & Hin & Hs & Hop). apply IH.
      apply elem_of_cons in Hin as [->|Hin]; [|by exists s].
      destruct Hop as [Hop|Hop]; [done|].
      apply otlp_matchScopeSpans_spec in Hop. congruence.
    + split; [exact Hrest|].
      intros (s & Hin & Hs & Hop). apply IH.
      apply elem_of_cons in Hin as [->|Hin]; [done|]. by exists s.
Qed.

(** The loop over resource spans accepts exactly the accepted traces. *)
Lemma otlp_matchResourceSpans_accepted query t :
  ApiV3.matchResourceSpans query (ApiV3.TracesData_ResourceSpans t) = true
  ↔ otlp_trace_accepted query t.
Proof. apply otlp_matchResourceSpans_spec. Qed.

(** A trace with a span that matches is accepted. *)
Lemma otlp_trace_matches_accepted query t :
  otlp_trace_matches query t → otlp_trace_accepted query t.
Proof.
  intros (rs & ss & span & Hrs & Hss & Hsp & resource & Hres & Hsvc & Hop).
  exists rs. split; [done|]. split; [by rewrite Hres|].
  destruct Hop as [Hop|Hop]; [by left|]. right. by exists ss, span.
Qed.

(** The service name read off an absent resource is the empty string. *)
Lemma otlp_getServiceName_nil : ApiV3.getServiceName None = EmptyString.
Proof. reflexivity. Qed.

(** What was sent on a stream that only grew. *)
Lemma emitted_app {C : Type} (stream : ServerStream C) more verdict' :
  emitted stream (mkStream (delivered stream ++ more) verdict') = more.
Proof. unfold emitted. simpl. by rewrite drop_app_length. Qed.

Lemma emitted_nil {C : Type} (stream : ServerStream C) : emitted stream stream = [].
Proof. unfold emitted. by rewrite drop_all. Qed.

(** * Point lookup *)

Local Open Scope string_scope.
Local Open Scope list_scope.

(** A lookup that misses: nil, nothing sent. *)
Lemma flat_GetTrace_missing (q : ApiV2.QueryService) traceID stream :
  ApiV2.traces q !! traceID = None →
  ApiV2.GetTrace q (ApiV2.mkGetTraceRequest traceID) stream = mkRun q stream OK.
Proof. intros Hnone. unfold ApiV2.GetTrace, ApiV2.Get. simpl. by rewrite Hnone. Qed.

Lemma otlp_GetTrace_missing (q : ApiV3.QueryService) traceID stream :
  ApiV3.traces q !! traceID = None →
  ApiV3.GetTrace q (ApiV3.mkGetTraceRequest traceID) stream = mkRun q stream OK.
Proof. intros Hnone. unfold ApiV3.GetTrace, ApiV3.Get. simpl. by rewrite Hnone. Qed.

(** C4: for a trace identifier that is not in the store, GetTrace returns
    nil having sent nothing, in both servers: the stream is exactly as it
    was, the receiver is untouched, and the result is neither an error nor a
    chunk. *)
Theorem GetTrace_not_found :
  (∀ (q : ApiV2.QueryService) traceID stream,
     ApiV2.traces q !! traceID = None →
     ApiV2.GetTrace q (ApiV2.mkGetTraceRequest traceID) stream = mkRun q stream OK
     ∧ emitted stream (wire (ApiV2.GetTrace q (ApiV2.mkGetTraceRequest traceID) stream)) = [])
  ∧ (∀ (q : ApiV3.QueryService) traceID stream,
       ApiV3.traces q !! traceID = None →
       ApiV3.GetTrace q (ApiV3.mkGetTraceRequest traceID) stream = mkRun q stream OK
       ∧ emitted stream (wire (ApiV3.GetTrace q (ApiV3.mkGetTraceRequest traceID) stream)) = []).
Proof.
  split; intros q traceID stream Hnone.
  - rewrite flat_GetTrace_missing by done. split; [done|apply emitted_nil].
  - rewrite otlp_GetTrace_missing by done. split; [done|apply emitted_nil].
Qed.

Lemma GetTrace_not_found_witness :
  ApiV2.GetTrace flat_demo (ApiV2.mkGetTraceRequest "deadbeef") open_stream
    = mkRun flat_demo open_stream OK
  ∧ ApiV3.GetTrace otlp_demo (ApiV3.mkGetTraceRequest "deadbeef") open_stream
    = mkRun otlp_demo open_stream OK.
Proof.
  split.
  - apply (proj1 GetTrace_not_found). vm_compute. reflexivity.
  - apply (proj2 GetTrace_not_found). vm_compute. reflexivity.
Defined.

(** GetTrace with the stored identifier on a transport that lets the chunk
    through: one chunk, the stored content. *)
Lemma flat_GetTrace_found (q : ApiV2.QueryService) traceID spans stream :
  ApiV2.traces q !! traceID = Some spans →
  verdict stream (delivered stream) (ApiV2.mkSpansResponseChunk spans) = None →
  ApiV2.GetTrace q (ApiV2.mkGetTraceRequest traceID) stream
  = mkRun q (mkStream (delivered stream ++ [ApiV2.mkSpansResponseChunk spans])
               (verdict stream)) OK.
Proof.
  intros Hq Hv. unfold ApiV2.GetTrace, ApiV2.Get, Send. simpl. by rewrite Hq, Hv.
Qed.

Lemma otlp_GetTrace_found (q : ApiV3.QueryService) traceID t stream :
  ApiV3.traces q !! traceID = Some t →
  verdict stream (delivered stream) t = None →
  ApiV3.GetTrace q (ApiV3.mkGetTraceRequest traceID) stream
  = mkRun q (mkStream (delivered stream ++ [t]) (verdict stream)) OK.
Proof.
  intros Hq Hv. unfold ApiV3.GetTrace, ApiV3.Get, Send. simpl.
  by rewrite Hq, otlp_chunk_id, Hv.
Qed.

(** C3, as the code has it: GetTrace does not look at the identifier before
    the lookup.  The empty identifier is a key like any other: when nothing
    is stored under it the call returns nil with nothing sent, which is the
    outcome for any identifier that is not in the store, and when a trace is
    stored under it that trace is sent. *)
Theorem GetTrace_empty_identifier_is_a_lookup :
  (∀ (q : ApiV2.QueryService) stream,
     (ApiV2.traces q !! "" = None →
      ∀ other, ApiV2.traces q !! other = None →
        ApiV2.GetTrace q (ApiV2.mkGetTraceRequest "") stream = mkRun q stream OK
        ∧ ApiV2.GetTrace q (ApiV2.mkGetTraceRequest "") stream
          = ApiV2.GetTrace q (ApiV2.mkGetTraceRequest other) stream)
     ∧ (∀ spans, ApiV2.traces q !! "" = Some spans → reliable stream →
        emitted stream (wire (ApiV2.GetTrace q (ApiV2.mkGetTraceRequest "") stream))
        = [ApiV2.mkSpansResponseChunk spans]))
  ∧ (∀ (q : ApiV3.QueryService) stream,
       (ApiV3.traces q !! "" = None →
        ∀ other, ApiV3.traces q !! other = None →
          ApiV3.GetTrace q (ApiV3.mkGetTraceRequest "") stream = mkRun q stream OK
          ∧ ApiV3.GetTrace q (ApiV3.mkGetTraceRequest "") stream
            = ApiV3.GetTrace q (ApiV3.mkGetTraceRequest other) stream)
       ∧ (∀ t, ApiV3.traces q !! "" = Some t → reliable stream →
          emitted stream (wire (ApiV3.GetTrace q (ApiV3.mkGetTraceRequest "") stream))
          = [t])).
Proof.
  split; intros q stream; split.
  - intros Hnone other Hother. by rewrite !flat_GetTrace_missing.
  - intros spans Hq Hr. rewrite (flat_GetTrace_found _ _ _ _ Hq) by apply Hr.
    simpl. apply emitted_app.
  - intros Hnone other Hother. by rewrite !otlp_GetTrace_missing.
  - intros t Hq Hr. rewrite (otlp_GetTrace_found _ _ _ _ Hq) by apply Hr.
    simpl. apply emitted_app.
Qed.

Lemma GetTrace_empty_identifier_witness :
  (ApiV2.GetTrace flat_demo (ApiV2.mkGetTraceRequest "") open_stream
     = mkRun flat_demo open_stream OK
   ∧ ApiV2.GetTrace flat_demo (ApiV2.mkGetTraceRequest "") open_stream
     = ApiV2.GetTrace flat_demo (ApiV2.mkGetTraceRequest "deadbeef") open_stream)
  ∧ emitted open_stream
      (wire (ApiV3.GetTrace (ApiV3.Put "" orphan_trace otlp_demo)
               (ApiV3.mkGetTraceRequest "") open_stream))
    = [orphan_trace].
Proof.
  split.
  - apply (proj1 (proj1 GetTrace_empty_identifier_is_a_lookup flat_demo open_stream)).
    + vm_compute. reflexivity.
    + vm_compute. reflexivity.
  - apply (proj2 (proj2 GetTrace_empty_identifier_is_a_lookup _ open_stream)).
    + vm_compute. reflexivity.
    + intros history c. reflexivity.
Defined.

(** C3 as stated fails: on the empty store the empty identifier is not
    rejected.  GetTrace returns nil, and the whole run is the one an unknown
    identifier gets. *)
Lemma GetTrace_empty_identifier_counterexample :
  returned (ApiV2.GetTrace ApiV2.NewQueryService (ApiV2.mkGetTraceRequest "") open_stream)
    = OK
  ∧ ApiV2.GetTrace ApiV2.NewQueryService (ApiV2.mkGetTraceRequest "") open_stream
    = ApiV2.GetTrace ApiV2.NewQueryService (ApiV2.mkGetTraceRequest "deadbeef") open_stream
  ∧ returned (ApiV3.GetTrace ApiV3.NewQueryService (ApiV3.mkGetTraceRequest "") open_stream)
    = OK
  ∧ ApiV3.GetTrace ApiV3.NewQueryService (ApiV3.mkGetTraceRequest "") open_stream
    = ApiV3.GetTrace ApiV3.NewQueryService (ApiV3.mkGetTraceRequest "deadbeef") open_stream.
Proof. repeat split. Qed.

(** * The catalogue *)

(** The append loop of GetOperations builds the image of the stored names,
    in stored order. *)
Lemma append_loop {A B : Type} (f : A → B) (l : list A) (init : list B) :
  foldl (λ acc x, acc ++ [f x]) init l = init ++ (f <$> l).
Proof.
  revert init. induction l as [|x l IH]; intros init; simpl.
  - by rewrite app_nil_r.
  - rewrite IH. by rewrite <- app_assoc.
Qed.

Lemma flat_GetOperations_known (q : ApiV2.QueryService) service kind ops :
  ApiV2.operations q !! service = Some ops →
  ApiV2.GetOperations q (ApiV2.mkGetOperationsRequest service kind)
  = mkReply q (ApiV2.mkGetOperationsResponse ((λ name, ApiV2.mkOperation name kind) <$> ops))
      None.
Proof.
  intros Hq. unfold ApiV2.GetOperations. simpl. rewrite Hq.
  by rewrite (append_loop (λ name, ApiV2.mkOperation name kind)).
Qed.

(** C7: for a service with no entry in the operations map, GetOperations
    answers with a response whose operation list is empty and with a nil
    error, in both servers, whatever span kind the request carries. *)
Theorem GetOperations_unknown_service :
  (∀ (q : ApiV2.QueryService) service kind,
     ApiV2.operations q !! service = None →
     ApiV2.GetOperations q (ApiV2.mkGetOperationsRequest service kind)
     = mkReply q (ApiV2.mkGetOperationsResponse []) None)
  ∧ (∀ (q : ApiV3.QueryService) service kind,
       ApiV3.operations q !! service = None →
       ApiV3.GetOperations q (ApiV3.mkGetOperationsRequest service kind)
       = mkReply q (ApiV3.mkGetOperationsResponse []) None).
Proof.
  split; intros q service kind Hnone.
  - unfold ApiV2.GetOperations. simpl. by rewrite Hnone.
  - unfold ApiV3.GetOperations. simpl. by rewrite Hnone.
Qed.

Lemma GetOperations_unknown_service_witness :
  ApiV2.GetOperations flat_demo (ApiV2.mkGetOperationsRequest "billing" "server")
    = mkReply flat_demo (ApiV2.mkGetOperationsResponse []) None
  ∧ ApiV3.GetOperations otlp_demo (ApiV3.mkGetOperationsRequest "billing" "")
    = mkReply otlp_demo (ApiV3.mkGetOperationsResponse []) None.
Proof.
  split.
  - apply (proj1 GetOperations_unknown_service). vm_compute. reflexivity.
  - apply (proj2 GetOperations_unknown_service). vm_compute. reflexivity.
Defined.

(** C10: in the flat-span server, for a service the operations map knows
    and any span kind in the request, GetOperations succeeds, the names of
    the returned operations are the stored names in stored order, and every
    returned operation carries the span kind of the request. *)
Theorem GetOperations_echoes_span_kind (q : ApiV2.QueryService) service kind ops :
  ApiV2.operations q !! service = Some ops →
  let reply := ApiV2.GetOperations q (ApiV2.mkGetOperationsRequest service kind) in
  failure reply = None
  ∧ ApiV2.Operation_Name <$> ApiV2.Operations (response reply) = ops
  ∧ Forall (λ op, ApiV2.Operation_SpanKind op = kind) (ApiV2.Operations (response reply)).
Proof.
  intros Hq reply. subst reply.
  rewrite (flat_GetOperations_known _ _ _ _ Hq). simpl.
  split; [done|]. split.
  - rewrite <- list_fmap_compose. simpl. apply list_fmap_id.
  - apply Forall_fmap. by apply Forall_true.
Qed.

Lemma GetOperations_echoes_span_kind_witness :
  let reply := ApiV2.GetOperations flat_demo
                 (ApiV2.mkGetOperationsRequest "auth-service" "client") in
  failure reply = None
  ∧ ApiV2.Operation_Name <$> ApiV2.Operations (response reply)
    = ["authenticate"; "validate-token"; "refresh-token"]
  ∧ Forall (λ op, ApiV2.Operation_SpanKind op = "client")
      (ApiV2.Operations (response reply)).
Proof.
  apply (GetOperations_echoes_span_kind flat_demo "auth-service" "client").
  vm_compute. reflexivity.
Defined.

(** * The store *)

Lemma flat_Get_Put traceID spans q :
  ApiV2.Get traceID (ApiV2.Put traceID spans q) = Some spans.
Proof. unfold ApiV2.Get, ApiV2.Put. simpl. apply lookup_insert_eq. Qed.

Lemma flat_Get_Put_ne traceID other spans q :
  other ≠ traceID → ApiV2.Get traceID (ApiV2.Put other spans q) = ApiV2.Get traceID q.
Proof. intros Hne. unfold ApiV2.Get, ApiV2.Put. simpl. by apply lookup_insert_ne. Qed.

Lemma otlp_Get_Put traceID t q :
  ApiV3.Get traceID (ApiV3.Put traceID t q) = Some t.
Proof. unfold ApiV3.Get, ApiV3.Put. simpl. apply lookup_insert_eq. Qed.

Lemma otlp_Get_Put_ne traceID other t q :
  other ≠ traceID → ApiV3.Get traceID (ApiV3.Put other t q) = ApiV3.Get traceID q.
Proof. intros Hne. unfold ApiV3.Get, ApiV3.Put. simpl. by apply lookup_insert_ne. Qed.

(** Writes to other identifiers leave an identifier's content alone. *)
Lemma flat_puts_other traceID later q :
  Forall (λ w, w.1 ≠ traceID) later →
  ApiV2.Get traceID (flat_puts later q) = ApiV2.Get traceID q.
Proof.
  unfold flat_puts. intros Hl. revert q.
  induction Hl as [|w later Hw _ IH]; intros q; simpl; [done|].
  rewrite IH. by apply flat_Get_Put_ne.
Qed.

Lemma otlp_puts_other traceID later q :
  Forall (λ w, w.1 ≠ traceID) later →
  ApiV3.Get traceID (otlp_puts later q) = ApiV3.Get traceID q.
Proof.
  unfold otlp_puts. intros Hl. revert q.
  induction Hl as [|w later Hw _ IH]; intros q; simpl; [done|].
  rewrite IH. by apply otlp_Get_Put_ne.
Qed.

(** C8: in both servers, whatever was written before (to this identifier or
    to others), once [Put traceID t] is the latest write to [traceID] the
    read gives back exactly [t]; a second [Put] to the same identifier
    replaces the first outright, so writing the same content twice is
    writing it once; and GetTrace then streams that content as one chunk. *)
Theorem Put_then_Get_last_write_wins :
  (∀ (q : ApiV2.QueryService) earlier later traceID spans,
     Forall (λ w, w.1 ≠ traceID) later →
     let q' := flat_puts later (ApiV2.Put traceID spans (flat_puts earlier q)) in
     ApiV2.Get traceID q' = Some spans
     ∧ (∀ old, ApiV2.Put traceID spans (ApiV2.Put traceID old q) = ApiV2.Put traceID spans q)
     ∧ emitted open_stream
         (wire (ApiV2.GetTrace q' (ApiV2.mkGetTraceRequest traceID) open_stream))
       = [ApiV2.mkSpansResponseChunk spans])
  ∧ (∀ (q : ApiV3.QueryService) earlier later traceID t,
       Forall (λ w, w.1 ≠ traceID) later →
       let q' := otlp_puts later (ApiV3.Put traceID t (otlp_puts earlier q)) in
       ApiV3.Get traceID q' = Some t
       ∧ (∀ old, ApiV3.Put traceID t (ApiV3.Put traceID old q) = ApiV3.Put traceID t q)
       ∧ emitted open_stream
           (wire (ApiV3.GetTrace q' (ApiV3.mkGetTraceRequest traceID) open_stream))
         = [t]).
Proof.
  split.
  - intros q earlier later traceID spans Hl q'.
    assert (Hget : ApiV2.Get traceID q' = Some spans).
    { unfold q'. rewrite flat_puts_other by done. apply flat_Get_Put. }
    split; [done|]. split.
    + intros old. unfold ApiV2.Put. simpl. by rewrite insert_insert_eq.
    + rewrite (flat_GetTrace_found _ _ _ _ Hget) by done. done.
  - intros q earlier later traceID t Hl q'.
    assert (Hget : ApiV3.Get traceID q' = Some t).
    { unfold q'. rewrite otlp_puts_other by done. apply otlp_Get_Put. }
    split; [done|]. split.
    + intros old. unfold ApiV3.Put. simpl. by rewrite insert_insert_eq.
    + rewrite (otlp_GetTrace_found _ _ _ _ Hget) by done. done.
Qed.

Lemma Put_then_Get_last_write_wins_witness :
  ApiV2.Get "0b"
    (flat_puts [("0c", [])]
       (ApiV2.Put "0b" [flat_span "checkout" None]
          (flat_puts [("0b", []); ("0b", [flat_span "login" None])] flat_demo)))
    = Some [flat_span "checkout" None]
  ∧ ApiV3.Get "0b"
      (otlp_puts [("0c", spanless_trace)]
         (ApiV3.Put "0b" orphan_trace
            (otlp_puts [("0b", spanless_trace); ("0b", orphan_trace)] otlp_demo)))
    = Some orphan_trace.
Proof.
  split.
  - apply (proj1 Put_then_Get_last_write_wins flat_demo
             [("0b", []); ("0b", [flat_span "login" None])] [("0c", [])] "0b").
    repeat constructor; simpl; discriminate.
  - apply (proj2 Put_then_Get_last_write_wins otlp_demo
             [("0b", spanless_trace); ("0b", orphan_trace)] [("0c", spanless_trace)] "0b").
    repeat constructor; simpl; discriminate.
Defined.

(** * Search *)

(** Whatever the flat server sends is a stored trace the inner loop
    accepted; and when it returns nil it has sent every such trace. *)
Lemma flat_emitted_sound (q : ApiV2.QueryService) query stream entries c :
  range_order (ApiV2.traces q) entries →
  c ∈ emitted stream
        (wire (ApiV2.FindTraces q (ApiV2.mkFindTracesRequest (Some query)) stream entries)) →
  ∃ traceID spans,
    ApiV2.traces q !! traceID = Some spans
    ∧ ApiV2.matchSpans query spans = true
    ∧ c = ApiV2.mkSpansResponseChunk spans.
Proof.
  intros Ho. rewrite flat_FindTraces_scan. simpl. intros Hc.
  apply scan_emitted_sound in Hc as (k & t & Hin & Hm & ->).
  exists k, t. split; [|done]. by apply (range_order_elem _ _ _ _ Ho).
Qed.

Lemma flat_emitted_complete (q : ApiV2.QueryService) query stream entries traceID spans :
  range_order (ApiV2.traces q) entries →
  returned (ApiV2.FindTraces q (ApiV2.mkFindTracesRequest (Some query)) stream entries) = OK →
  ApiV2.traces q !! traceID = Some spans →
  ApiV2.matchSpans query spans = true →
  ApiV2.mkSpansResponseChunk spans
  ∈ emitted stream
      (wire (ApiV2.FindTraces q (ApiV2.mkFindTracesRequest (Some query)) stream entries)).
Proof.
  intros Ho. rewrite flat_FindTraces_scan. simpl. intros Hok Hq Hm.
  apply (scan_emitted_complete _ _ _ _ traceID spans); [done| |done].
  by apply (range_order_elem _ _ _ _ Ho).
Qed.

Lemma otlp_emitted_sound (q : ApiV3.QueryService) query stream entries c :
  range_order (ApiV3.traces q) entries →
  c ∈ emitted stream
        (wire (ApiV3.FindTraces q (ApiV3.mkFindTracesRequest (Some query)) stream entries)) →
  ∃ traceID t,
    ApiV3.traces q !! traceID = Some t
    ∧ ApiV3.matchResourceSpans query (ApiV3.TracesData_ResourceSpans t) = true
    ∧ c = t.
Proof.
  intros Ho. rewrite otlp_FindTraces_scan. simpl. intros Hc.
  apply scan_emitted_sound in Hc as (k & t & Hin & Hm & ->).
  exists k, t. rewrite otlp_chunk_id. split; [|done].
  by apply (range_order_elem _ _ _ _ Ho).
Qed.

Lemma otlp_emitted_complete (q : ApiV3.QueryService) query stream entries traceID t :
  range_order (ApiV3.traces q) entries →
  returned (ApiV3.FindTraces q (ApiV3.mkFindTracesRequest (Some query)) stream entries) = OK →
  ApiV3.traces q !! traceID = Some t →
  ApiV3.matchResourceSpans query (ApiV3.TracesData_ResourceSpans t) = true →
  t ∈ emitted stream
        (wire (ApiV3.FindTraces q (ApiV3.mkFindTracesRequest (Some query)) stream entries)).
Proof.
  intros Ho. rewrite otlp_FindTraces_scan. simpl. intros Hok Hq Hm.
  rewrite <- (otlp_chunk_id t) at 1.
  apply (scan_emitted_complete
           (λ t, ApiV3.matchResourceSpans query (ApiV3.TracesData_ResourceSpans t))
           (λ t, ApiV3.mkTracesData (ApiV3.TracesData_ResourceSpans t))
           _ _ traceID t); [done| |done].
  by apply (range_order_elem _ _ _ _ Ho).
Qed.

(** C1, the code at the failing input.  The OTLP server holds one trace
    whose only resource names the frontend and holds no span at all.  For
    the query (frontend, no operation) FindTraces returns nil and has sent
    that trace, although no span of it matches: the loop sets [matched] on
    the service name alone, before it looks at any span.  The flat server,
    holding a trace with no span under the same identifier, sends nothing
    for that query. *)
Theorem FindTraces_sends_a_trace_without_spans :
  ApiV3.FindTraces spanless_store (otlp_query "frontend" "") open_stream
    (map_to_list (ApiV3.traces spanless_store))
  = mkRun spanless_store (mkStream [spanless_trace] (verdict open_stream)) OK
  ∧ otlp_spans spanless_trace = []
  ∧ ¬ otlp_trace_matches (ApiV3.mkTraceQueryParameters "frontend" "" ∅) spanless_trace
  ∧ ApiV2.FindTraces flat_spanless_store (flat_query "frontend" "") open_stream
      (map_to_list (ApiV2.traces flat_spanless_store))
    = mkRun flat_spanless_store open_stream OK.
Proof.
  split; [|split; [|split]].
  - vm_compute. reflexivity.
  - reflexivity.
  - intros (rs & ss & span & Hrs & Hss & _).
    unfold spanless_trace in Hrs. simpl in Hrs.
    apply list_elem_of_singleton in Hrs as ->. simpl in Hss.
    by apply elem_of_nil in Hss.
  - vm_compute. reflexivity.
Qed.

(** X15: the matching rule of FindTraces, exactly.  The entries ranged over
    being those of the store, in both servers whatever a run has sent is a
    stored trace that the rule accepts, and a run that returns nil has sent
    every stored trace the rule accepts.  The rule of the flat server: some
    span has a process naming the service asked for and, unless the
    operation asked for is empty, has that operation name.  The rule of the
    OTLP server: some resource spans has the service name asked for, as
    getServiceName reads it, and the operation asked for is empty or names
    a span under those resource spans; so every trace with a span that
    matches under a present resource is sent. *)
Theorem FindTraces_matching_rule :
  (∀ (q : ApiV2.QueryService) query stream entries,
     range_order (ApiV2.traces q) entries →
     let run := ApiV2.FindTraces q (ApiV2.mkFindTracesRequest (Some query)) stream entries in
     (∀ c, c ∈ emitted stream (wire run) →
           ∃ traceID spans,
             ApiV2.traces q !! traceID = Some spans
             ∧ flat_trace_matches query spans
             ∧ c = ApiV2.mkSpansResponseChunk spans)
     ∧ (returned run = OK →
        ∀ traceID spans,
          ApiV2.traces q !! traceID = Some spans →
          flat_trace_matches query spans →
          ApiV2.mkSpansResponseChunk spans ∈ emitted stream (wire run)))
  ∧ (∀ (q : ApiV3.QueryService) query stream entries,
       range_order (ApiV3.traces q) entries →
       let run := ApiV3.FindTraces q (ApiV3.mkFindTracesRequest (Some query)) stream entries in
       (∀ c, c ∈ emitted stream (wire run) →
             ∃ traceID,
               ApiV3.traces q !! traceID = Some c ∧ otlp_trace_accepted query c)
       ∧ (returned run = OK →
          ∀ traceID t, ApiV3.traces q !! traceID = Some t →
            otlp_trace_accepted query t → t ∈ emitted stream (wire run))
       ∧ (returned run = OK →
          ∀ traceID t, ApiV3.traces q !! traceID = Some t →
            otlp_trace_matches query t → t ∈ emitted stream (wire run))).
Proof.
  split.
  - intros q query stream entries Ho run. split.
    + intros c Hc. apply (flat_emitted_sound _ _ _ _ _ Ho) in Hc
        as (k & spans & Hq & Hm & ->).
      exists k, spans. split; [done|]. split; [|done]. by apply flat_matchSpans_spec.
    + intros Hok k spans Hq Hm. apply (flat_emitted_complete _ _ _ _ k); try done.
      by apply flat_matchSpans_spec.
  - intros q query stream entries Ho run.
    assert (Hacc : returned run = OK →
              ∀ traceID t, ApiV3.traces q !! traceID = Some t →
              otlp_trace_accepted query t → t ∈ emitted stream (wire run)).
    { intros Hok k t Hq Hm. apply (otlp_emitted_complete _ _ _ _ k); try done.
      by apply otlp_matchResourceSpans_accepted. }
    split; [|split].
    + intros c Hc. apply (otlp_emitted_sound _ _ _ _ _ Ho) in Hc
        as (k & t & Hq & Hm & ->).
      exists k. split; [done|]. by apply otlp_matchResourceSpans_accepted.
    + exact Hacc.
    + intros Hok k t Hq Hm. apply (Hacc Hok k); [done|].
      by apply otlp_trace_matches_accepted.
Qed.

Lemma FindTraces_matching_rule_witness :
  ApiV2.mkSpansResponseChunk flat_login_trace
  ∈ emitted open_stream
      (wire (ApiV2.FindTraces flat_login_store (flat_query "frontend" "login") open_stream
               (map_to_list (ApiV2.traces flat_login_store))))
  ∧ spanless_trace
    ∈ emitted open_stream
        (wire (ApiV3.FindTraces spanless_store (otlp_query "frontend" "") open_stream
                 (map_to_list (ApiV3.traces spanless_store)))).
Proof.
  split.
  - apply (proj1 FindTraces_matching_rule flat_login_store
             (ApiV2.mkTraceQueryParameters "frontend" "login" ∅) open_stream
             (map_to_list (ApiV2.traces flat_login_store))) with (traceID := "0c").
    + unfold range_order. reflexivity.
    + vm_compute. reflexivity.
    + vm_compute. reflexivity.
    + exists (flat_span "login" (Some (ApiV2.mkProcess "frontend" []))).
      split; [apply list_elem_of_here|].
      exists (ApiV2.mkProcess "frontend" []). split; [reflexivity|].
      split; [reflexivity|]. right. reflexivity.
  - apply (proj1 (proj2 (proj2 FindTraces_matching_rule spanless_store
                           (ApiV3.mkTraceQueryParameters "frontend" "" ∅) open_stream
                           (map_to_list (ApiV3.traces spanless_store))
                           ltac:(unfold range_order; reflexivity))))
      with (traceID := "0a").
    + vm_compute. reflexivity.
    + vm_compute. reflexivity.
    + eexists. split; [apply list_elem_of_here|].
      split; [reflexivity|]. left. reflexivity.
Defined.

(** Narrowing by operation cannot turn a trace that does not match into one
    that does. *)
Lemma flat_matchSpans_widen service operation attrs attrs' spans :
  ApiV2.matchSpans (ApiV2.mkTraceQueryParameters service operation attrs) spans = true →
  ApiV2.matchSpans (ApiV2.mkTraceQueryParameters service EmptyString attrs') spans = true.
Proof.
  rewrite !flat_matchSpans_spec.
  intros (span & Hin & process & Hp & Hsvc & _).
  exists span. split; [done|]. exists process. split; [done|]. split; [done|]. by left.
Qed.

Lemma otlp_matchResourceSpans_widen service operation attrs attrs' rss :
  ApiV3.matchResourceSpans (ApiV3.mkTraceQueryParameters service operation attrs) rss = true →
  ApiV3.matchResourceSpans (ApiV3.mkTraceQueryParameters service EmptyString attrs') rss = true.
Proof.
  rewrite !otlp_matchResourceSpans_spec.
  intros (rs & Hin & Hsvc & _). exists rs. split; [done|]. split; [done|]. by left.
Qed.

(** C5: in both servers, whatever FindTraces sends for service S and
    operation O, on any stream and in any order of the store, is also sent
    by a FindTraces for service S and no operation that runs to its end,
    again on any stream and in any order of the store. *)
Theorem FindTraces_operation_filter_narrows :
  (∀ (q : ApiV2.QueryService) service operation attrs attrs'
     stream stream' entries entries',
     range_order (ApiV2.traces q) entries → range_order (ApiV2.traces q) entries' →
     let narrow :=
       ApiV2.FindTraces q
         (ApiV2.mkFindTracesRequest
            (Some (ApiV2.mkTraceQueryParameters service operation attrs)))
         stream entries in
     let wide :=
       ApiV2.FindTraces q
         (ApiV2.mkFindTracesRequest
            (Some (ApiV2.mkTraceQueryParameters service EmptyString attrs')))
         stream' entries' in
     returned wide = OK →
     ∀ c, c ∈ emitted stream (wire narrow) → c ∈ emitted stream' (wire wide))
  ∧ (∀ (q : ApiV3.QueryService) service operation attrs attrs'
       stream stream' entries entries',
       range_order (ApiV3.traces q) entries → range_order (ApiV3.traces q) entries' →
       let narrow :=
         ApiV3.FindTraces q
           (ApiV3.mkFindTracesRequest
              (Some (ApiV3.mkTraceQueryParameters service operation attrs)))
           stream entries in
       let wide :=
         ApiV3.FindTraces q
           (ApiV3.mkFindTracesRequest
              (Some (ApiV3.mkTraceQueryParameters service EmptyString attrs')))
           stream' entries' in
       returned wide = OK →
       ∀ c, c ∈ emitted stream (wire narrow) → c ∈ emitted stream' (wire wide)).
Proof.
  split; intros q service operation attrs attrs' stream stream' entries entries'
           Ho Ho' narrow wide Hok c Hc.
  - apply (flat_emitted_sound _ _ _ _ _ Ho) in Hc as (k & spans & Hq & Hm & ->).
    apply (flat_emitted_complete _ _ _ _ k); try done.
    by eapply flat_matchSpans_widen.
  - apply (otlp_emitted_sound _ _ _ _ _ Ho) in Hc as (k & t & Hq & Hm & ->).
    apply (otlp_emitted_complete _ _ _ _ k); try done.
    by eapply otlp_matchResourceSpans_widen.
Qed.

Lemma FindTraces_operation_filter_narrows_witness :
  (∀ c,
     c ∈ emitted (closing_after 0 "transport is closing")
           (wire (ApiV2.FindTraces flat_demo (flat_query "auth-service" "validate-token")
                    (closing_after 0 "transport is closing")
                    (map_to_list (ApiV2.traces flat_demo)))) →
     c ∈ emitted open_stream
           (wire (ApiV2.FindTraces flat_demo (flat_query "auth-service" "")
                    open_stream (map_to_list (ApiV2.traces flat_demo)))))
  ∧ (∀ c,
       c ∈ emitted open_stream
             (wire (ApiV3.FindTraces otlp_demo (otlp_query "auth-service" "validate-token")
                      open_stream (map_to_list (ApiV3.traces otlp_demo)))) →
       c ∈ emitted open_stream
             (wire (ApiV3.FindTraces otlp_demo (otlp_query "auth-service" "")
                      open_stream (reverse (map_to_list (ApiV3.traces otlp_demo)))))).
Proof.
  split.
  - apply (proj1 FindTraces_operation_filter_narrows flat_demo
             "auth-service" "validate-token" ∅ ∅
             (closing_after 0 "transport is closing") open_stream).
    + unfold range_order. reflexivity.
    + unfold range_order. reflexivity.
    + vm_compute. reflexivity.
  - apply (proj2 FindTraces_operation_filter_narrows otlp_demo
             "auth-service" "validate-token" ∅ ∅ open_stream open_stream).
    + unfold range_order. reflexivity.
    + unfold range_order. apply reverse_Permutation.
    + vm_compute. reflexivity.
Defined.

(** * Absent process, absent resource *)

(** In the flat server a span with a nil process has no say: the inner loop
    gives the same answer with the span as without it, for every query. *)
Lemma flat_nil_process_has_no_say query before span after :
  ApiV2.Span_Process span = None →
  ApiV2.matchSpans query (before ++ span :: after)
  = ApiV2.matchSpans query (before ++ after).
Proof.
  intros Hnil. induction before as [|s before IH]; simpl.
  - by rewrite Hnil.
  - by rewrite IH.
Qed.

(** In the OTLP server resource spans with a nil resource have no say as
    long as the service asked for is not the empty string. *)
Lemma otlp_nil_resource_has_no_say query before rs after :
  ApiV3.ServiceName query ≠ EmptyString →
  ApiV3.ResourceSpans_Resource rs = None →
  ApiV3.matchResourceSpans query (before ++ rs :: after)
  = ApiV3.matchResourceSpans query (before ++ after).
Proof.
  intros Hne Hnil. induction before as [|s before IH]; simpl.
  - rewrite Hnil, otlp_getServiceName_nil.
    destruct (String.eqb_spec EmptyString (ApiV3.ServiceName query)); [congruence|done].
  - by rewrite IH.
Qed.

(** C2, the code at the failing input: the OTLP server holds one trace
    whose only span sits under a nil resource, and the query asks for the
    empty service name.  The trace is sent, with no operation asked for and
    with the span's name asked for.  The flat server, holding the same span
    with a nil process, sends nothing for that query. *)
Theorem FindTraces_nil_resource_matches_empty_service :
  emitted open_stream
    (wire (ApiV3.FindTraces orphan_store (otlp_query "" "") open_stream
             (map_to_list (ApiV3.traces orphan_store))))
  = [orphan_trace]
  ∧ emitted open_stream
      (wire (ApiV3.FindTraces orphan_store (otlp_query "" "checkout") open_stream
               (map_to_list (ApiV3.traces orphan_store))))
    = [orphan_trace]
  ∧ emitted open_stream
      (wire (ApiV2.FindTraces flat_orphan_store (flat_query "" "") open_stream
               (map_to_list (ApiV2.traces flat_orphan_store))))
    = [].
Proof. repeat split; vm_compute; reflexivity. Qed.

(** * A send that fails *)

(** A refused send, seen from the transport. *)
Lemma Send_verdict {C : Type} (stream : ServerStream C) c err :
  verdict stream (delivered stream) c = Some err → Send stream c = (stream, Some err).
Proof. intros Hv. unfold Send. by rewrite Hv. Qed.

Lemma verdict_Send {C : Type} (stream stream' : ServerStream C) c err :
  Send stream c = (stream', Some err) → verdict stream (delivered stream) c = Some err.
Proof. unfold Send. destruct (verdict _ _ _); by intros [= <- <-]. Qed.

(** C6: in both servers,

    - GetTrace, when the send of the trace it found is refused, returns the
      error of that send and leaves the stream as it was;
    - FindTraces, having ranged over [before] without trouble and reached a
      matching trace whose send is refused, returns the error of that send,
      whatever entries were still to come; the stream is the one left after
      [before], which holds everything that had been sent;
    - and an error returned by FindTraces is always the error of a refused
      send of a matching trace, with the run over the entries before it
      intact. *)
Theorem failed_send_aborts_and_propagates :
  (∀ (q : ApiV2.QueryService) traceID spans stream err,
     ApiV2.traces q !! traceID = Some spans →
     verdict stream (delivered stream) (ApiV2.mkSpansResponseChunk spans) = Some err →
     ApiV2.GetTrace q (ApiV2.mkGetTraceRequest traceID) stream = mkRun q stream (Failed err))
  ∧ (∀ (q : ApiV2.QueryService) query stream before traceID spans after stream1 err,
       ApiV2.FindTraces q (ApiV2.mkFindTracesRequest (Some query)) stream before
         = mkRun q stream1 OK →
       ApiV2.matchSpans query spans = true →
       verdict stream1 (delivered stream1) (ApiV2.mkSpansResponseChunk spans) = Some err →
       ApiV2.FindTraces q (ApiV2.mkFindTracesRequest (Some query)) stream
         (before ++ (traceID, spans) :: after)
         = mkRun q stream1 (Failed err)
       ∧ ∃ sent, delivered stream1 = delivered stream ++ sent)
  ∧ (∀ (q : ApiV2.QueryService) query stream entries err,
       returned (ApiV2.FindTraces q (ApiV2.mkFindTracesRequest (Some query)) stream entries)
         = Failed err →
       ∃ before traceID spans after stream1,
         entries = before ++ (traceID, spans) :: after
         ∧ ApiV2.matchSpans query spans = true
         ∧ ApiV2.FindTraces q (ApiV2.mkFindTracesRequest (Some query)) stream before
           = mkRun q stream1 OK
         ∧ verdict stream1 (delivered stream1) (ApiV2.mkSpansResponseChunk spans) = Some err
         ∧ wire (ApiV2.FindTraces q (ApiV2.mkFindTracesRequest (Some query)) stream entries)
           = stream1)
  ∧ (∀ (q : ApiV3.QueryService) traceID t stream err,
       ApiV3.traces q !! traceID = Some t →
       verdict stream (delivered stream) t = Some err →
       ApiV3.GetTrace q (ApiV3.mkGetTraceRequest traceID) stream = mkRun q stream (Failed err))
  ∧ (∀ (q : ApiV3.QueryService) query stream before traceID t after stream1 err,
       ApiV3.FindTraces q (ApiV3.mkFindTracesRequest (Some query)) stream before
         = mkRun q stream1 OK →
       ApiV3.matchResourceSpans query (ApiV3.TracesData_ResourceSpans t) = true →
       verdict stream1 (delivered stream1) t = Some err →
       ApiV3.FindTraces q (ApiV3.mkFindTracesRequest (Some query)) stream
         (before ++ (traceID, t) :: after)
         = mkRun q stream1 (Failed err)
       ∧ ∃ sent, delivered stream1 = delivered stream ++ sent)
  ∧ (∀ (q : ApiV3.QueryService) query stream entries err,
       returned (ApiV3.FindTraces q (ApiV3.mkFindTracesRequest (Some query)) stream entries)
         = Failed err →
       ∃ before traceID t after stream1,
         entries = before ++ (traceID, t) :: after
         ∧ ApiV3.matchResourceSpans query (ApiV3.TracesData_ResourceSpans t) = true
         ∧ ApiV3.FindTraces q (ApiV3.mkFindTracesRequest (Some query)) stream before
           = mkRun q stream1 OK
         ∧ verdict stream1 (delivered stream1) t = Some err
         ∧ wire (ApiV3.FindTraces q (ApiV3.mkFindTracesRequest (Some query)) stream entries)
           = stream1).
Proof.
  repeat apply conj.
  - intros q traceID spans stream err Hq Hv.
    unfold ApiV2.GetTrace, ApiV2.Get. simpl. by rewrite Hq, (Send_verdict _ _ _ Hv).
  - intros q query stream before traceID spans after stream1 err Hb Hm Hv.
    rewrite flat_FindTraces_scan in Hb.
    destruct (scan _ _ before stream) as [s r] eqn:Hscan. simpl in Hb.
    injection Hb as -> ->. split.
    + rewrite flat_FindTraces_scan.
      by rewrite (scan_abort _ _ _ _ _ _ _ _ _ _ Hscan Hm (Send_verdict _ _ _ Hv)).
    + pose proof (scan_appends (ApiV2.matchSpans query) ApiV2.mkSpansResponseChunk
                    before stream) as [more Hmore].
      rewrite Hscan in Hmore. by exists more.
  - intros q query stream entries err Hret.
    rewrite flat_FindTraces_scan in Hret |- *.
    destruct (scan _ _ entries stream) as [s r] eqn:Hscan. simpl in Hret. subst r.
    apply scan_failed in Hscan as (before & k & t & after & -> & Hm & Hb & Hs).
    exists before, k, t, after, s. split; [done|]. split; [done|]. split.
    + rewrite flat_FindTraces_scan. by rewrite Hb.
    + split; [|done]. by apply verdict_Send in Hs.
  - intros q traceID t stream err Hq Hv.
    unfold ApiV3.GetTrace, ApiV3.Get. simpl.
    by rewrite Hq, otlp_chunk_id, (Send_verdict _ _ _ Hv).
  - intros q query stream before traceID t after stream1 err Hb Hm Hv.
    rewrite otlp_FindTraces_scan in Hb.
    destruct (scan _ _ before stream) as [s r] eqn:Hscan. simpl in Hb.
    injection Hb as -> ->. split.
    + rewrite otlp_FindTraces_scan.
      assert (Hs : Send stream1 (ApiV3.mkTracesData (ApiV3.TracesData_ResourceSpans t))
                   = (stream1, Some err)).
      { rewrite otlp_chunk_id. by apply Send_verdict. }
      by rewrite (scan_abort _ _ _ _ _ _ _ _ _ _ Hscan Hm Hs).
    + pose proof (scan_appends
                    (λ t, ApiV3.matchResourceSpans query (ApiV3.TracesData_ResourceSpans t))
                    (λ t, ApiV3.mkTracesData (ApiV3.TracesData_ResourceSpans t))
                    before stream) as [more Hmore].
      rewrite Hscan in Hmore. by exists more.
  - intros q query stream entries err Hret.
    rewrite otlp_FindTraces_scan in Hret |- *.
    destruct (scan _ _ entries stream) as [s r] eqn:Hscan. simpl in Hret. subst r.
    apply scan_failed in Hscan as (before & k & t & after & -> & Hm & Hb & Hs).
    exists before, k, t, after, s. split; [done|]. split; [done|]. split.
    + rewrite otlp_FindTraces_scan. by rewrite Hb.
    + split; [|done]. apply verdict_Send in Hs. by rewrite otlp_chunk_id in Hs.
Qed.

Lemma failed_send_aborts_and_propagates_witness :
  ApiV2.GetTrace flat_orphan_store (ApiV2.mkGetTraceRequest "0b")
      (closing_after 0 "transport is closing")
    = mkRun flat_orphan_store (closing_after 0 "transport is closing")
        (Failed "transport is closing")
  ∧ (∃ before traceID spans after stream1,
       map_to_list (ApiV2.traces flat_demo) = before ++ (traceID, spans) :: after
       ∧ ApiV2.matchSpans (ApiV2.mkTraceQueryParameters "frontend" "" ∅) spans = true
       ∧ ApiV2.FindTraces flat_demo (flat_query "frontend" "")
           (closing_after 0 "transport is closing") before
         = mkRun flat_demo stream1 OK
       ∧ verdict stream1 (delivered stream1) (ApiV2.mkSpansResponseChunk spans)
         = Some "transport is closing"
       ∧ wire (ApiV2.FindTraces flat_demo (flat_query "frontend" "")
                 (closing_after 0 "transport is closing")
                 (map_to_list (ApiV2.traces flat_demo)))
         = stream1)
  ∧ ApiV3.FindTraces spanless_store (otlp_query "frontend" "")
      (closing_after 1 "transport is closing")
      ([("0a", spanless_trace)] ++ ("0c", spanless_trace) :: [("0d", orphan_trace)])
    = mkRun spanless_store
        (mkStream [spanless_trace] (verdict (closing_after 1 "transport is closing")))
        (Failed "transport is closing").
Proof.
  destruct failed_send_aborts_and_propagates as (Hget & _ & Hfailed & _ & Habort & _).
  split; [|split].
  - apply (Hget flat_orphan_store "0b" [flat_span "checkout" None]).
    + vm_compute. reflexivity.
    + reflexivity.
  - apply (Hfailed flat_demo (ApiV2.mkTraceQueryParameters "frontend" "" ∅)).
    vm_compute. reflexivity.
  - apply (Habort spanless_store (ApiV3.mkTraceQueryParameters "frontend" "" ∅)
             (closing_after 1 "transport is closing") [("0a", spanless_trace)]
             "0c" spanless_trace [("0d", orphan_trace)]).
    + vm_compute. reflexivity.
    + vm_compute. reflexivity.
    + reflexivity.
Defined.

(** * Queries do not write *)

(** C9: in both servers every query handler hands back the receiver it was
    given, traces, services and operations alike, whatever the request, the
    stream and its transport, and the order the store is ranged over; this
    includes the runs that end in an error or in a panic. *)
Theorem queries_leave_the_store_and_catalogue_unchanged :
  (∀ (q : ApiV2.QueryService) getTrace findTraces getServices getOperations getDependencies
     stream entries,
     receiver (ApiV2.GetTrace q getTrace stream) = q
     ∧ receiver (ApiV2.FindTraces q findTraces stream entries) = q
     ∧ self (ApiV2.GetServices q getServices) = q
     ∧ self (ApiV2.GetOperations q getOperations) = q
     ∧ self (ApiV2.GetDependencies q getDependencies) = q)
  ∧ (∀ (q : ApiV3.QueryService) getTrace findTraces getServices getOperations
       stream entries,
       receiver (ApiV3.GetTrace q getTrace stream) = q
       ∧ receiver (ApiV3.FindTraces q findTraces stream entries) = q
       ∧ self (ApiV3.GetServices q getServices) = q
       ∧ self (ApiV3.GetOperations q getOperations) = q).
Proof.
  split.
  - intros q getTrace findTraces getServices getOperations getDependencies stream entries.
    repeat apply conj; try reflexivity.
    + unfold ApiV2.GetTrace. destruct (ApiV2.Get _ q); [|done].
      by destruct (Send stream _) as [stream' [err|]].
    + unfold ApiV2.FindTraces. destruct (ApiV2.Query findTraces); [|done].
      by destruct (ApiV2.rangeTraces _ _ _).
  - intros q getTrace findTraces getServices getOperations stream entries.
    repeat apply conj; try reflexivity.
    + unfold ApiV3.GetTrace. destruct (ApiV3.Get _ q); [|done].
      by destruct (Send stream _) as [stream' [err|]].
    + unfold ApiV3.FindTraces. destruct (ApiV3.Query findTraces); [|done].
      by destruct (ApiV3.rangeTraces _ _ _).
Qed.

(** * Reading the service name off a resource *)

(** The loop of getServiceName stops at the first attribute keyed
    service.name. *)
Lemma firstServiceName_first before value after :
  Forall (λ attr, ApiV3.KeyValue_Key attr ≠ "service.name") before →
  ApiV3.firstServiceName (before ++ ApiV3.mkKeyValue "service.name" value :: after)
  = ApiV3.GetStringValue value.
Proof.
  induction 1 as [|attr before Hattr _ IH]; simpl.
  - done.
  - destruct (String.eqb_spec (ApiV3.KeyValue_Key attr) "service.name"); [done|apply IH].
Qed.

Lemma firstServiceName_none attrs :
  Forall (λ attr, ApiV3.KeyValue_Key attr ≠ "service.name") attrs →
  ApiV3.firstServiceName attrs = "".
Proof.
  induction 1 as [|attr attrs Hattr _ IH]; simpl.
  - done.
  - destruct (String.eqb_spec (ApiV3.KeyValue_Key attr) "service.name"); [done|apply IH].
Qed.

(** X1: getServiceName reads the first attribute keyed service.name and no
    other.  With no such attribute before it, an attribute built by
    stringAttr gives its value back, whatever attributes follow, later
    service.name attributes included; in general the result is the string
    value of that first attribute. *)
Theorem getServiceName_reads_the_first_service_name before name value after :
  Forall (λ attr, ApiV3.KeyValue_Key attr ≠ "service.name") before →
  ApiV3.getServiceName
    (Some (ApiV3.mkResource (before ++ ApiV3.stringAttr "service.name" name :: after)))
  = name
  ∧ ApiV3.getServiceName
      (Some (ApiV3.mkResource (before ++ ApiV3.mkKeyValue "service.name" value :: after)))
    = ApiV3.GetStringValue value.
Proof.
  intros Hb. split.
  - unfold ApiV3.getServiceName, ApiV3.stringAttr. simpl.
    by rewrite firstServiceName_first.
  - unfold ApiV3.getServiceName. simpl. by apply firstServiceName_first.
Qed.

Lemma getServiceName_reads_the_first_service_name_witness :
  ApiV3.getServiceName
    (Some (ApiV3.mkResource
             ([ApiV3.stringAttr "hostname" "frontend-01"; ApiV3.intAttr "pid" 7]
              ++ ApiV3.stringAttr "service.name" "frontend"
              :: [ApiV3.stringAttr "service.name" "database"])))
  = "frontend".
Proof.
  apply (getServiceName_reads_the_first_service_name
           [ApiV3.stringAttr "hostname" "frontend-01"; ApiV3.intAttr "pid" 7]
           "frontend" None).
  repeat constructor; simpl; discriminate.
Defined.

(** X2: a resource with no attribute keyed service.name has the empty
    service name; and so has a resource whose first service.name attribute
    is an integer, even when a string-valued service.name follows it. *)
Theorem getServiceName_without_a_string_name attrs :
  Forall (λ attr, ApiV3.KeyValue_Key attr ≠ "service.name") attrs →
  ApiV3.getServiceName (Some (ApiV3.mkResource attrs)) = ""
  ∧ ∀ n after,
      ApiV3.getServiceName
        (Some (ApiV3.mkResource (attrs ++ ApiV3.intAttr "service.name" n :: after)))
      = "".
Proof.
  intros Ha. split.
  - unfold ApiV3.getServiceName. simpl. by apply firstServiceName_none.
  - intros n after. unfold ApiV3.getServiceName, ApiV3.intAttr. simpl.
    by rewrite firstServiceName_first.
Qed.

Lemma getServiceName_without_a_string_name_witness :
  ApiV3.getServiceName
    (Some (ApiV3.mkResource [ApiV3.stringAttr "hostname" "db-01"])) = ""
  ∧ ApiV3.getServiceName
      (Some (ApiV3.mkResource
               ([ApiV3.stringAttr "hostname" "db-01"]
                ++ ApiV3.intAttr "service.name" 42
                :: [ApiV3.stringAttr "service.name" "database"])))
    = "".
Proof.
  split.
  - apply (getServiceName_without_a_string_name [ApiV3.stringAttr "hostname" "db-01"]).
    repeat constructor; simpl; discriminate.
  - apply (getServiceName_without_a_string_name [ApiV3.stringAttr "hostname" "db-01"]).
    repeat constructor; simpl; discriminate.
Defined.

(** * Requests FindTraces does not look into *)

Lemma flat_matchSpans_attributes service operation attrs attrs' spans :
  ApiV2.matchSpans (ApiV2.mkTraceQueryParameters service operation attrs) spans
  = ApiV2.matchSpans (ApiV2.mkTraceQueryParameters service operation attrs') spans.
Proof.
  induction spans as [|span rest IH]; simpl; [done|]. by rewrite IH.
Qed.

Lemma otlp_matchResourceSpans_attributes service operation attrs attrs' rss :
  ApiV3.matchResourceSpans (ApiV3.mkTraceQueryParameters service operation attrs) rss
  = ApiV3.matchResourceSpans (ApiV3.mkTraceQueryParameters service operation attrs') rss.
Proof.
  induction rss as [|rs rest IH]; simpl; [done|]. by rewrite IH.
Qed.

(** X4: in both servers the attributes of the query play no part in the
    search: two requests with the same service and operation name get the
    same run, chunk for chunk and error for error, whatever attributes each
    carries. *)
Theorem FindTraces_ignores_the_attributes :
  (∀ (q : ApiV2.QueryService) service operation attrs attrs' stream entries,
     ApiV2.FindTraces q
       (ApiV2.mkFindTracesRequest
          (Some (ApiV2.mkTraceQueryParameters service operation attrs))) stream entries
     = ApiV2.FindTraces q
         (ApiV2.mkFindTracesRequest
            (Some (ApiV2.mkTraceQueryParameters service operation attrs'))) stream entries)
  ∧ (∀ (q : ApiV3.QueryService) service operation attrs attrs' stream entries,
       ApiV3.FindTraces q
         (ApiV3.mkFindTracesRequest
            (Some (ApiV3.mkTraceQueryParameters service operation attrs))) stream entries
       = ApiV3.FindTraces q
           (ApiV3.mkFindTracesRequest
              (Some (ApiV3.mkTraceQueryParameters service operation attrs'))) stream entries).
Proof.
  split; intros q service operation attrs attrs' stream entries.
  - unfold ApiV2.FindTraces. simpl. f_equal.
    revert stream. induction entries as [|[k spans] rest IH]; intros stream; simpl; [done|].
    rewrite (flat_matchSpans_attributes _ _ attrs attrs').
    destruct (ApiV2.matchSpans _ spans); [|apply IH].
    destruct (Send stream _) as [stream' [err|]]; [done|apply IH].
  - unfold ApiV3.FindTraces. simpl. f_equal.
    revert stream. induction entries as [|[k t] rest IH]; intros stream; simpl; [done|].
    rewrite (otlp_matchResourceSpans_attributes _ _ attrs attrs').
    destruct (ApiV3.matchResourceSpans _ _); [|apply IH].
    destruct (Send stream _) as [stream' [err|]]; [done|apply IH].
Qed.

(** * More about complete and cut-short searches *)

Section ScanMore.
Context {T C : Type} (matched : T → bool) (chunk : T → C).

(** Ranging over the same entries in another order gives the same hits in
    another order. *)
Lemma hits_Permutation entries entries' :
  entries ≡ₚ entries' → hits matched chunk entries ≡ₚ hits matched chunk entries'.
Proof. intros Hp. unfold hits. by rewrite Hp. Qed.

(** A scan that returns nil has sent the hits and nothing else. *)
Lemma scan_complete_emitted entries stream :
  (scan matched chunk entries stream).2 = OK →
  emitted stream (scan matched chunk entries stream).1 = hits matched chunk entries.
Proof.
  intros Hok. destruct (scan_sent matched chunk entries stream) as (more & Hd & _ & Hall).
  unfold emitted. by rewrite Hd, drop_app_length, (Hall Hok).
Qed.

(** Any scan has sent an initial part of the hits. *)
Lemma scan_emitted_prefix entries stream :
  emitted stream (scan matched chunk entries stream).1 `prefix_of` hits matched chunk entries.
Proof.
  destruct (scan_sent matched chunk entries stream) as (more & Hd & Hp & _).
  unfold emitted. by rewrite Hd, drop_app_length.
Qed.


End ScanMore.

(** X5: in both servers a FindTraces that returns nil has sent each stored
    trace the matcher accepts exactly once and nothing else: what it sent is
    a rearrangement of the accepted traces of the store, in whatever order
    the store was ranged over. *)
Theorem FindTraces_sends_each_match_once :
  (∀ (q : ApiV2.QueryService) query stream entries,
     range_order (ApiV2.traces q) entries →
     let run := ApiV2.FindTraces q (ApiV2.mkFindTracesRequest (Some query)) stream entries in
     returned run = OK →
     emitted stream (wire run)
     ≡ₚ ApiV2.mkSpansResponseChunk
          <$> filter (λ spans, ApiV2.matchSpans query spans = true)
                (map_to_list (ApiV2.traces q)).*2)
  ∧ (∀ (q : ApiV3.QueryService) query stream entries,
       range_order (ApiV3.traces q) entries →
       let run := ApiV3.FindTraces q (ApiV3.mkFindTracesRequest (Some query)) stream entries in
       returned run = OK →
       emitted stream (wire run)
       ≡ₚ filter (λ t, ApiV3.matchResourceSpans query (ApiV3.TracesData_ResourceSpans t) = true)
            (map_to_list (ApiV3.traces q)).*2).
Proof.
  split; intros q query stream entries Ho run Hok; unfold run in *.
  - rewrite flat_FindTraces_scan in Hok |- *. simpl in *.
    rewrite scan_complete_emitted by done.
    apply (hits_Permutation _ _ _ _ Ho).
  - rewrite otlp_FindTraces_scan in Hok |- *. simpl in *.
    rewrite scan_complete_emitted by done.
    rewrite (hits_Permutation _ _ _ _ Ho). unfold hits.
    rewrite <- (list_fmap_id (filter _ _)) at 2.
    apply reflexive_eq, list_fmap_ext. intros i t _. apply otlp_chunk_id.
Qed.

Lemma FindTraces_sends_each_match_once_witness :
  emitted open_stream
    (wire (ApiV3.FindTraces otlp_demo (otlp_query "frontend" "") open_stream
             (reverse (map_to_list (ApiV3.traces otlp_demo)))))
  ≡ₚ filter (λ t, ApiV3.matchResourceSpans (ApiV3.mkTraceQueryParameters "frontend" "" ∅)
                    (ApiV3.TracesData_ResourceSpans t) = true)
       (map_to_list (ApiV3.traces otlp_demo)).*2.
Proof.
  apply (proj2 FindTraces_sends_each_match_once otlp_demo
           (ApiV3.mkTraceQueryParameters "frontend" "" ∅) open_stream
           (reverse (map_to_list (ApiV3.traces otlp_demo)))).
  - unfold range_order. apply reverse_Permutation.
  - vm_compute. reflexivity.
Defined.



(** X7: in both servers a failing transport can only cut the result short.
    Over the same entries, what FindTraces sent on any stream is an initial
    part, in the same order, of what it sends on a stream whose sends all
    succeed. *)
Theorem FindTraces_failure_truncates :
  (∀ (q : ApiV2.QueryService) query stream stream' entries,
     reliable stream' →
     emitted stream
       (wire (ApiV2.FindTraces q (ApiV2.mkFindTracesRequest (Some query)) stream entries))
     `prefix_of`
     emitted stream'
       (wire (ApiV2.FindTraces q (ApiV2.mkFindTracesRequest (Some query)) stream' entries)))
  ∧ (∀ (q : ApiV3.QueryService) query stream stream' entries,
       reliable stream' →
       emitted stream
         (wire (ApiV3.FindTraces q (ApiV3.mkFindTracesRequest (Some query)) stream entries))
       `prefix_of`
       emitted stream'
         (wire (ApiV3.FindTraces q (ApiV3.mkFindTracesRequest (Some query)) stream' entries))).
Proof.
  split; intros q query stream stream' entries Hr.
  - rewrite !flat_FindTraces_scan. simpl.
    rewrite (scan_complete_emitted _ _ entries stream') by (by rewrite scan_reliable).
    apply scan_emitted_prefix.
  - rewrite !otlp_FindTraces_scan. simpl.
    rewrite (scan_complete_emitted _ _ entries stream') by (by rewrite scan_reliable).
    apply scan_emitted_prefix.
Qed.

Lemma FindTraces_failure_truncates_witness :
  emitted (closing_after 1 "transport is closing")
    (wire (ApiV3.FindTraces otlp_demo (otlp_query "frontend" "")
             (closing_after 1 "transport is closing")
             (map_to_list (ApiV3.traces otlp_demo))))
  `prefix_of`
  emitted open_stream
    (wire (ApiV3.FindTraces otlp_demo (otlp_query "frontend" "") open_stream
             (map_to_list (ApiV3.traces otlp_demo)))).
Proof.
  apply (proj2 FindTraces_failure_truncates otlp_demo
           (ApiV3.mkTraceQueryParameters "frontend" "" ∅)
           (closing_after 1 "transport is closing") open_stream).
  intros history c. reflexivity.
Defined.

(** * Point lookup and search together *)

(** X8: in both servers GetTrace sends at most one chunk.  Whatever it sent
    is the stored content of the identifier asked for, and it then returned
    nil; and when it returns nil for an identifier the store holds, that
    content is the one chunk sent. *)
Theorem GetTrace_sends_at_most_one_chunk :
  (∀ (q : ApiV2.QueryService) traceID stream,
     let run := ApiV2.GetTrace q (ApiV2.mkGetTraceRequest traceID) stream in
     (length (emitted stream (wire run)) ≤ 1)%nat
     ∧ (∀ c, c ∈ emitted stream (wire run) →
             returned run = OK
             ∧ ∃ spans, ApiV2.traces q !! traceID = Some spans
                        ∧ c = ApiV2.mkSpansResponseChunk spans)
     ∧ (∀ spans, ApiV2.traces q !! traceID = Some spans → returned run = OK →
                 emitted stream (wire run) = [ApiV2.mkSpansResponseChunk spans]))
  ∧ (∀ (q : ApiV3.QueryService) traceID stream,
       let run := ApiV3.GetTrace q (ApiV3.mkGetTraceRequest traceID) stream in
       (length (emitted stream (wire run)) ≤ 1)%nat
       ∧ (∀ c, c ∈ emitted stream (wire run) →
               returned run = OK ∧ ApiV3.traces q !! traceID = Some c)
       ∧ (∀ t, ApiV3.traces q !! traceID = Some t → returned run = OK →
               emitted stream (wire run) = [t])).
Proof.
  split; intros q traceID stream run; unfold run.
  - unfold ApiV2.GetTrace, ApiV2.Get, Send. simpl.
    destruct (ApiV2.traces q !! traceID) as [spans|] eqn:Hq; simpl.
    + destruct (verdict stream (delivered stream) _) as [err|] eqn:Hv; simpl.
      * rewrite emitted_nil. simpl. split; [lia|]. split; [|done].
        intros c Hc. by apply elem_of_nil in Hc.
      * rewrite emitted_app. simpl. split; [lia|]. split.
        { intros c Hc. apply list_elem_of_singleton in Hc as ->. split; [done|].
          by exists spans. }
        by intros spans' [= <-] _.
    + rewrite emitted_nil. simpl. split; [lia|]. split; [|done].
      intros c Hc. by apply elem_of_nil in Hc.
  - unfold ApiV3.GetTrace, ApiV3.Get, Send. simpl.
    destruct (ApiV3.traces q !! traceID) as [t|] eqn:Hq; simpl.
    + rewrite otlp_chunk_id.
      destruct (verdict stream (delivered stream) t) as [err|] eqn:Hv; simpl.
      * rewrite emitted_nil. simpl. split; [lia|]. split; [|done].
        intros c Hc. by apply elem_of_nil in Hc.
      * rewrite emitted_app. simpl. split; [lia|]. split.
        { intros c Hc. by apply list_elem_of_singleton in Hc as ->. }
        by intros t' [= <-] _.
    + rewrite emitted_nil. simpl. split; [lia|]. split; [|done].
      intros c Hc. by apply elem_of_nil in Hc.
Qed.

Lemma GetTrace_sends_at_most_one_chunk_witness :
  emitted open_stream
    (wire (ApiV3.GetTrace orphan_store (ApiV3.mkGetTraceRequest "0b") open_stream))
  = [orphan_trace].
Proof.
  apply (proj2 GetTrace_sends_at_most_one_chunk orphan_store "0b" open_stream).
  - vm_compute. reflexivity.
  - vm_compute. reflexivity.
Defined.

(** X9: in both servers whatever FindTraces sends can be fetched by
    identifier: for every chunk it sent there is an identifier for which
    GetTrace, on a stream whose sends succeed, sends that very chunk and
    nothing else. *)
Theorem FindTraces_results_are_retrievable :
  (∀ (q : ApiV2.QueryService) query stream entries c,
     range_order (ApiV2.traces q) entries →
     c ∈ emitted stream
           (wire (ApiV2.FindTraces q (ApiV2.mkFindTracesRequest (Some query)) stream entries)) →
     ∃ traceID, ∀ stream',
       reliable stream' →
       returned (ApiV2.GetTrace q (ApiV2.mkGetTraceRequest traceID) stream') = OK
       ∧ emitted stream' (wire (ApiV2.GetTrace q (ApiV2.mkGetTraceRequest traceID) stream'))
         = [c])
  ∧ (∀ (q : ApiV3.QueryService) query stream entries c,
       range_order (ApiV3.traces q) entries →
       c ∈ emitted stream
             (wire (ApiV3.FindTraces q (ApiV3.mkFindTracesRequest (Some query)) stream entries)) →
       ∃ traceID, ∀ stream',
         reliable stream' →
         returned (ApiV3.GetTrace q (ApiV3.mkGetTraceRequest traceID) stream') = OK
         ∧ emitted stream' (wire (ApiV3.GetTrace q (ApiV3.mkGetTraceRequest traceID) stream'))
           = [c]).
Proof.
  split; intros q query stream entries c Ho Hc.
  - apply (flat_emitted_sound _ _ _ _ _ Ho) in Hc as (k & spans & Hq & _ & ->).
    exists k. intros stream' Hr.
    rewrite (flat_GetTrace_found _ _ _ _ Hq) by apply Hr. simpl.
    split; [done|apply emitted_app].
  - apply (otlp_emitted_sound _ _ _ _ _ Ho) in Hc as (k & t & Hq & _ & ->).
    exists k. intros stream' Hr.
    rewrite (otlp_GetTrace_found _ _ _ _ Hq) by apply Hr. simpl.
    split; [done|apply emitted_app].
Qed.

Lemma FindTraces_results_are_retrievable_witness :
  ∃ traceID, ∀ stream',
    reliable stream' →
    returned (ApiV3.GetTrace spanless_store (ApiV3.mkGetTraceRequest traceID) stream') = OK
    ∧ emitted stream'
        (wire (ApiV3.GetTrace spanless_store (ApiV3.mkGetTraceRequest traceID) stream'))
      = [spanless_trace].
Proof.
  apply (proj2 FindTraces_results_are_retrievable spanless_store
           (ApiV3.mkTraceQueryParameters "frontend" "" ∅) open_stream
           (map_to_list (ApiV3.traces spanless_store)) spanless_trace).
  - unfold range_order. reflexivity.
  - vm_compute. apply list_elem_of_here.
Defined.

(** X10: writing a trace and then searching, in both servers.  After the
    content of [traceID] is set, a FindTraces that returns nil has sent the
    new content if the matcher accepts it, and the accepted traces stored
    under the other identifiers, and nothing else; whatever was stored under
    [traceID] before has no say. *)
Theorem FindTraces_after_a_write :
  (∀ (q : ApiV2.QueryService) traceID spans query stream entries,
     let q' := ApiV2.Put traceID spans q in
     let run := ApiV2.FindTraces q' (ApiV2.mkFindTracesRequest (Some query)) stream entries in
     range_order (ApiV2.traces q') entries →
     returned run = OK →
     ∀ c, c ∈ emitted stream (wire run)
          ↔ (ApiV2.matchSpans query spans = true ∧ c = ApiV2.mkSpansResponseChunk spans)
            ∨ ∃ other spans',
                other ≠ traceID
                ∧ ApiV2.traces q !! other = Some spans'
                ∧ ApiV2.matchSpans query spans' = true
                ∧ c = ApiV2.mkSpansResponseChunk spans')
  ∧ (∀ (q : ApiV3.QueryService) traceID t query stream entries,
       let q' := ApiV3.Put traceID t q in
       let run := ApiV3.FindTraces q' (ApiV3.mkFindTracesRequest (Some query)) stream entries in
       range_order (ApiV3.traces q') entries →
       returned run = OK →
       ∀ c, c ∈ emitted stream (wire run)
            ↔ (ApiV3.matchResourceSpans query (ApiV3.TracesData_ResourceSpans t) = true
               ∧ c = t)
              ∨ ∃ other t',
                  other ≠ traceID
                  ∧ ApiV3.traces q !! other = Some t'
                  ∧ ApiV3.matchResourceSpans query (ApiV3.TracesData_ResourceSpans t') = true
                  ∧ c = t').
Proof.
  split.
  - intros q traceID spans query stream entries q' run Ho Hok c. unfold run in *. split.
    + intros Hc. apply (flat_emitted_sound _ _ _ _ _ Ho) in Hc as (k & s & Hq & Hm & ->).
      unfold q', ApiV2.Put in Hq. simpl in Hq.
      apply lookup_insert_Some in Hq as [[<- <-]|[Hne Hq]]; [by left|].
      right. by exists k, s.
    + intros [[Hm ->]|(k & s & Hne & Hq & Hm & ->)].
      * apply (flat_emitted_complete _ _ _ _ traceID); try done.
        unfold q', ApiV2.Put. simpl. apply lookup_insert_eq.
      * apply (flat_emitted_complete _ _ _ _ k); try done.
        unfold q', ApiV2.Put. simpl. by rewrite lookup_insert_ne.
  - intros q traceID t query stream entries q' run Ho Hok c. unfold run in *. split.
    + intros Hc. apply (otlp_emitted_sound _ _ _ _ _ Ho) in Hc as (k & s & Hq & Hm & ->).
      unfold q', ApiV3.Put in Hq. simpl in Hq.
      apply lookup_insert_Some in Hq as [[<- <-]|[Hne Hq]]; [by left|].
      right. by exists k, s.
    + intros [[Hm ->]|(k & s & Hne & Hq & Hm & ->)].
      * apply (otlp_emitted_complete _ _ _ _ traceID); try done.
        unfold q', ApiV3.Put. simpl. apply lookup_insert_eq.
      * apply (otlp_emitted_complete _ _ _ _ k); try done.
        unfold q', ApiV3.Put. simpl. by rewrite lookup_insert_ne.
Qed.

Lemma FindTraces_after_a_write_witness :
  spanless_trace
  ∈ emitted open_stream
      (wire (ApiV3.FindTraces (ApiV3.Put "0a" orphan_trace spanless_store)
               (otlp_query "frontend" "") open_stream
               (map_to_list (ApiV3.traces (ApiV3.Put "0a" orphan_trace spanless_store)))))
  ↔ (ApiV3.matchResourceSpans (ApiV3.mkTraceQueryParameters "frontend" "" ∅)
       (ApiV3.TracesData_ResourceSpans orphan_trace) = true
     ∧ spanless_trace = orphan_trace)
    ∨ ∃ other t',
        other ≠ "0a"
        ∧ ApiV3.traces spanless_store !! other = Some t'
        ∧ ApiV3.matchResourceSpans (ApiV3.mkTraceQueryParameters "frontend" "" ∅)
            (ApiV3.TracesData_ResourceSpans t') = true
        ∧ spanless_trace = t'.
Proof.
  apply (proj2 FindTraces_after_a_write spanless_store "0a" orphan_trace
           (ApiV3.mkTraceQueryParameters "frontend" "" ∅) open_stream).
  - unfold range_order. reflexivity.
  - vm_compute. reflexivity.
Defined.

(** * The catalogue of the OTLP server *)

Lemma otlp_GetOperations_known (q : ApiV3.QueryService) service kind ops :
  ApiV3.operations q !! service = Some ops →
  ApiV3.GetOperations q (ApiV3.mkGetOperationsRequest service kind)
  = mkReply q (ApiV3.mkGetOperationsResponse ((λ name, ApiV3.mkOperation name "") <$> ops))
      None.
Proof.
  intros Hq. unfold ApiV3.GetOperations. simpl. rewrite Hq.
  by rewrite (append_loop (λ name, ApiV3.mkOperation name "")).
Qed.

(** X11: in the OTLP server GetOperations does not look at the span kind of
    the request: two requests for the same service get the same reply
    whatever kinds they carry; and for a service the operations map knows
    the reply has no error, lists the stored names in stored order, and
    leaves the span kind of every operation empty. *)
Theorem otlp_GetOperations_ignores_span_kind (q : ApiV3.QueryService) service kind kind' :
  ApiV3.GetOperations q (ApiV3.mkGetOperationsRequest service kind)
  = ApiV3.GetOperations q (ApiV3.mkGetOperationsRequest service kind')
  ∧ ∀ ops,
      ApiV3.operations q !! service = Some ops →
      let reply := ApiV3.GetOperations q (ApiV3.mkGetOperationsRequest service kind) in
      failure reply = None
      ∧ ApiV3.Operation_Name <$> ApiV3.Operations (response reply) = ops
      ∧ Forall (λ op, ApiV3.Operation_SpanKind op = "") (ApiV3.Operations (response reply)).
Proof.
  split; [done|]. intros ops Hq reply. subst reply.
  rewrite (otlp_GetOperations_known _ _ _ _ Hq). simpl.
  split; [done|]. split.
  - rewrite <- list_fmap_compose. simpl. apply list_fmap_id.
  - apply Forall_fmap. by apply Forall_true.
Qed.

Lemma otlp_GetOperations_ignores_span_kind_witness :
  let reply := ApiV3.GetOperations otlp_demo
                 (ApiV3.mkGetOperationsRequest "database" "client") in
  failure reply = None
  ∧ ApiV3.Operation_Name <$> ApiV3.Operations (response reply)
    = ["SELECT users"; "INSERT session"; "UPDATE last_login"]
  ∧ Forall (λ op, ApiV3.Operation_SpanKind op = "") (ApiV3.Operations (response reply)).
Proof.
  apply (proj2 (otlp_GetOperations_ignores_span_kind otlp_demo "database" "client" "server")).
  vm_compute. reflexivity.
Defined.

(** * Loading the demo data *)


(** X13: loading a sample trace writes one entry of the trace map and
    nothing else.  In the OTLP server, after createSampleTrace1 or
    createSampleTrace2 the replies of GetServices and GetOperations are what
    they were, and so is the run of GetTrace for every identifier other than
    the sample's; in the flat server the same holds for createSampleTrace2,
    whose identifier is the rendering of the parsed sample identifier, and
    for GetDependencies as well. *)
Theorem sample_traces_touch_one_entry :
  (∀ now (q : ApiV3.QueryService) load key,
     (load = ApiV3.createSampleTrace1 now ∧ key = "1234567890abcdef1234567890abcdef")
     ∨ (load = ApiV3.createSampleTrace2 now ∧ key = "fedcba0987654321fedcba0987654321") →
     (∀ req, response (ApiV3.GetServices (load q) req) = response (ApiV3.GetServices q req))
     ∧ (∀ req, response (ApiV3.GetOperations (load q) req)
               = response (ApiV3.GetOperations q req))
     ∧ (∀ traceID stream,
          traceID ≠ key →
          wire (ApiV3.GetTrace (load q) (ApiV3.mkGetTraceRequest traceID) stream)
            = wire (ApiV3.GetTrace q (ApiV3.mkGetTraceRequest traceID) stream)
          ∧ returned (ApiV3.GetTrace (load q) (ApiV3.mkGetTraceRequest traceID) stream)
            = returned (ApiV3.GetTrace q (ApiV3.mkGetTraceRequest traceID) stream)))
  ∧ (∀ parse render now (q : ApiV2.QueryService),
       let load := ApiV2.createSampleTrace2 parse render now in
       let key := render (parse "fedcba0987654321fedcba0987654321") in
       (∀ req, response (ApiV2.GetServices (load q) req) = response (ApiV2.GetServices q req))
       ∧ (∀ req, response (ApiV2.GetOperations (load q) req)
                 = response (ApiV2.GetOperations q req))
       ∧ (∀ req, response (ApiV2.GetDependencies (load q) req)
                 = response (ApiV2.GetDependencies q req))
       ∧ (∀ traceID stream,
            traceID ≠ key →
            wire (ApiV2.GetTrace (load q) (ApiV2.mkGetTraceRequest traceID) stream)
              = wire (ApiV2.GetTrace q (ApiV2.mkGetTraceRequest traceID) stream)
            ∧ returned (ApiV2.GetTrace (load q) (ApiV2.mkGetTraceRequest traceID) stream)
              = returned (ApiV2.GetTrace q (ApiV2.mkGetTraceRequest traceID) stream))).
Proof.
  split.
  - intros now q load key Hload.
    assert (Hput : ∃ t, load q = ApiV3.Put key t q).
    { destruct Hload as [[-> ->]|[-> ->]]; eexists; reflexivity. }
    destruct Hput as [t ->]. split; [done|]. split; [done|].
    intros traceID stream Hne.
    unfold ApiV3.GetTrace. cbn [ApiV3.GetTraceRequest_TraceId].
    rewrite otlp_Get_Put_ne by congruence.
    destruct (ApiV3.Get traceID q); [|done].
    by destruct (Send stream _) as [stream' [err|]].
  - intros parse render now q load key. split; [done|]. split; [done|]. split; [done|].
    intros traceID stream Hne.
    unfold load, ApiV2.createSampleTrace2, ApiV2.GetTrace.
    cbn [ApiV2.GetTraceRequest_TraceId].
    rewrite flat_Get_Put_ne by (subst key; congruence).
    destruct (ApiV2.Get traceID q); [|done].
    by destruct (Send stream _) as [stream' [err|]].
Qed.

Lemma sample_traces_touch_one_entry_witness :
  wire (ApiV3.GetTrace (ApiV3.createSampleTrace2 1700000000000000000%Z spanless_store)
          (ApiV3.mkGetTraceRequest "0a") open_stream)
    = wire (ApiV3.GetTrace spanless_store (ApiV3.mkGetTraceRequest "0a") open_stream)
  ∧ returned (ApiV3.GetTrace (ApiV3.createSampleTrace2 1700000000000000000%Z spanless_store)
                (ApiV3.mkGetTraceRequest "0a") open_stream)
    = returned (ApiV3.GetTrace spanless_store (ApiV3.mkGetTraceRequest "0a") open_stream).
Proof.
  apply (proj1 sample_traces_touch_one_entry 1700000000000000000%Z spanless_store
           (ApiV3.createSampleTrace2 1700000000000000000%Z) "fedcba0987654321fedcba0987654321").
  - right. split; reflexivity.
  - discriminate.
Defined.

(** * The sample traces as span trees *)

Lemma uint64_range z : (0 ≤ ApiV3.uint64 z < 2 ^ 64)%Z.
Proof. unfold ApiV3.uint64. apply Z.mod_pos_bound. lia. Qed.

Lemma uint64_small z : (0 ≤ z < 2 ^ 64)%Z → ApiV3.uint64 z = z.
Proof. intros H. unfold ApiV3.uint64. by apply Z.mod_small. Qed.

Ltac no_wrap :=
  repeat match goal with
         | |- context [ApiV3.uint64 ?z] => rewrite (uint64_small z) by lia
         end.

Ltac find_parent :=
  right; eexists;
  first
    [ split; [apply list_elem_of_here|]; split; [reflexivity|]; simpl; lia
    | split; [apply list_elem_of_further, list_elem_of_here|];
      split; [reflexivity|]; simpl; lia
    | split; [apply list_elem_of_further, list_elem_of_further, list_elem_of_here|];
      split; [reflexivity|]; simpl; lia ].

(** X14: the sample traces of the OTLP server, as createSampleTrace1 and
    createSampleTrace2 store them.  For every clock reading the start and
    end of every span fit an unsigned 64-bit field.  For a clock reading at
    least five minutes after the epoch and within the signed 64-bit
    nanosecond range, no addition wraps around: every span ends after it
    starts, every span that names a parent names a span of the same trace,
    and its interval lies inside its parent's. *)
Theorem sample_traces_are_span_trees (now : Z) (q : ApiV3.QueryService) (t : ApiV3.TracesData) :
  ApiV3.Get "1234567890abcdef1234567890abcdef" (ApiV3.createSampleTrace1 now q) = Some t
  ∨ ApiV3.Get "fedcba0987654321fedcba0987654321" (ApiV3.createSampleTrace2 now q) = Some t →
  Forall otlp_span_in_range (otlp_spans t)
  ∧ ((300000000000 ≤ now < 2 ^ 63)%Z →
     Forall (otlp_span_nested (otlp_spans t)) (otlp_spans t)).
Proof.
  assert (H64 : (2 ^ 64 = 18446744073709551616)%Z) by reflexivity.
  assert (H63 : (2 ^ 63 = 9223372036854775808)%Z) by reflexivity.
  intros [Hq|Hq].
  - unfold ApiV3.createSampleTrace1 in Hq. rewrite otlp_Get_Put in Hq.
    injection Hq as <-.
    cbn -[ApiV3.uint64 Z.mul Z.add Z.sub Z.pow ApiV3.Millisecond]. split.
    + repeat constructor; cbn -[ApiV3.uint64 Z.mul Z.add Z.sub Z.pow];
        apply uint64_range.
    + intros Hnow. unfold ApiV3.Millisecond. no_wrap.
      repeat apply Forall_cons_2; [..|apply Forall_nil_2];
        (split; [simpl; lia|]); first [by left|find_parent].
  - unfold ApiV3.createSampleTrace2 in Hq. rewrite otlp_Get_Put in Hq.
    injection Hq as <-.
    cbn -[ApiV3.uint64 Z.mul Z.add Z.sub Z.pow ApiV3.Millisecond]. split.
    + repeat constructor; cbn -[ApiV3.uint64 Z.mul Z.add Z.sub Z.pow];
        apply uint64_range.
    + intros Hnow. unfold ApiV3.Millisecond. no_wrap.
      repeat apply Forall_cons_2; [..|apply Forall_nil_2];
        (split; [simpl; lia|]); first [by left|find_parent].
Qed.

Lemma sample_traces_are_span_trees_witness :
  Forall otlp_span_in_range (otlp_spans otlp_sample1)
  ∧ Forall (otlp_span_nested (otlp_spans otlp_sample1)) (otlp_spans otlp_sample1).
Proof.
  destruct (sample_traces_are_span_trees 1700000000000000000 ApiV3.NewQueryService
              otlp_sample1) as [Hrange Hnested].
  - left. vm_compute. reflexivity.
  - split; [exact Hrange|]. apply Hnested. lia.
Defined.
